(** * Integrated Maize Advisory System: a shallow embedding of [project.py]

    The rule-based core of the advisory program is embedded function by
    function: the rainfall classifier, the three risk mappers, the two
    recommendation generators, the risk formatter, the variety selector
    and the orchestrating [generate_report].

    Conventions of the embedding.
    - A Python [str] is a [string]: the bytes of its UTF-8 encoding.  The
      two library functions on text that the program relies on,
      [str.lower] and [repr], are an interface ([Text]) with the facts
      about them that the proofs use; [ascii_text] implements it for ASCII
      text and is used to evaluate the examples, which are all ASCII.
    - The rainfall column has a pandas dtype, [int64] or [float64]; the
      program is written once for any dtype ([Dtype]) with its [sum] and
      its comparisons with 100 and 200.  An [int64] sum wraps around, a
      [float64] sum rounds.
    - [yield_potential] holds integers ([Z]); only comparisons are taken
      of it, and the yields 6.0, 5.0, 7.0, 4.0 of the test suite are
      written 6, 5, 7, 4.
    - A pandas [DataFrame] is the [list] of its rows, in row order; a
      boolean-mask selection is a [filter], [head(3)] is [firstn 3].
    - A Python exception is a value of [exn]; a function that can raise
      returns a [result]. *)

From Stdlib Require Import String Ascii List ZArith Bool Lia Arith.
From Stdlib Require Import Permutation Sorted PrimFloat.
Import ListNotations.

Set Warnings "-inexact-float".

Local Open Scope string_scope.
Local Open Scope Z_scope.

(* ================================================================== *)
(** ** Python values: strings, lists, exceptions *)

Module Py.

(** Upper-case ASCII letters are the codes 65 to 90. *)
Definition is_upper (c : ascii) : bool :=
  let n := nat_of_ascii c in (65 <=? n)%nat && (n <=? 90)%nat.

Definition lower_ascii (c : ascii) : ascii :=
  if is_upper c then ascii_of_nat (nat_of_ascii c + 32) else c.

(** [s.lower()] for an ASCII string: the letters A to Z are folded, every
    other byte is kept. *)
Fixpoint ascii_lower (s : string) : string :=
  match s with
  | EmptyString => EmptyString
  | String c s' => String (lower_ascii c) (ascii_lower s')
  end.

(** [s.isascii()] *)
Fixpoint is_ascii (s : string) : bool :=
  match s with
  | EmptyString => true
  | String c s' => (nat_of_ascii c <? 128)%nat && is_ascii s'
  end.

(** [sub in s] for two strings *)
Fixpoint contains (s sub : string) : bool :=
  String.prefix sub s
  || match s with
     | EmptyString => false
     | String _ s' => contains s' sub
     end.

(** [x in l] for a list of strings *)
Fixpoint isin (x : string) (l : list string) : bool :=
  match l with
  | [] => false
  | y :: l' => String.eqb x y || isin x l'
  end.

Fixpoint has_char (c : ascii) (s : string) : bool :=
  match s with
  | EmptyString => false
  | String d s' => Ascii.eqb c d || has_char c s'
  end.

(** *** [repr] of an ASCII string *)

Definition hex_digit (n : nat) : ascii :=
  ascii_of_nat (if (n <? 10)%nat then 48 + n else 87 + n).

Definition repr_ascii (quote c : ascii) : string :=
  let n := nat_of_ascii c in
  if Ascii.eqb c quote || Ascii.eqb c "\"%char then String "\"%char (String c EmptyString)
  else if (n =? 9)%nat then "\t"
  else if (n =? 10)%nat then "\n"
  else if (n =? 13)%nat then "\r"
  else if (n <? 32)%nat || (n =? 127)%nat then
    String "\"%char (String "x"%char
      (String (hex_digit (n / 16)) (String (hex_digit (n mod 16)) EmptyString)))
  else String c EmptyString.

Fixpoint repr_body (quote : ascii) (s : string) : string :=
  match s with
  | EmptyString => EmptyString
  | String c s' => repr_ascii quote c ++ repr_body quote s'
  end.

Definition squote : ascii := ascii_of_nat 39.
Definition dquote : ascii := ascii_of_nat 34.

(** [repr(s)] for an ASCII string: single quotes, unless the text has a
    single quote and no double quote. *)
Definition ascii_repr (s : string) : string :=
  let quote := if has_char squote s && negb (has_char dquote s)
               then dquote else squote in
  String quote (repr_body quote s ++ String quote EmptyString).

Fixpoint join (sep : string) (l : list string) : string :=
  match l with
  | [] => EmptyString
  | [x] => x
  | x :: l' => x ++ sep ++ join sep l'
  end.

(** *** Exceptions and results *)

Inductive exn : Type :=
| ValueError (msg : string)
| IndexError (msg : string).

Inductive result (A : Type) : Type :=
| Return (a : A)
| Raise (e : exn).
Arguments Return {A} a.
Arguments Raise {A} e.

Definition bind {A B : Type} (m : result A) (k : A -> result B) : result B :=
  match m with
  | Return a => k a
  | Raise e => Raise e
  end.

(** [l[i]] for a non-negative [i] *)
Definition getitem (l : list string) (i : nat) : result string :=
  match nth_error l i with
  | Some x => Return x
  | None => Raise (IndexError "list index out of range")
  end.

(** [[f(i) for i in l]] where [f] may raise *)
Fixpoint comprehension {A B : Type} (f : A -> result B) (l : list A)
  : result (list B) :=
  match l with
  | [] => Return []
  | a :: l' =>
      bind (f a) (fun b =>
      bind (comprehension f l') (fun bs => Return (b :: bs)))
  end.

End Py.

Import Py.

Declare Scope py_scope.
Delimit Scope py_scope with py.
Notation "x <- m ;; k" := (bind m (fun x => k))
  (at level 61, m at next level, right associativity) : py_scope.
Notation "m ;;; k" := (bind m (fun _ => k))
  (at level 61, right associativity) : py_scope.
Local Open Scope py_scope.

(* ================================================================== *)
(** ** Letter case of ASCII text *)

(** Two characters are the same letter up to ASCII case. *)
Definition same_letter (a b : ascii) : Prop :=
  a = b
  \/ (is_upper a = true /\ nat_of_ascii b = (nat_of_ascii a + 32)%nat)
  \/ (is_upper b = true /\ nat_of_ascii a = (nat_of_ascii b + 32)%nat).

(** [case_variant s t]: [t] is [s] with the case of some of the letters
    A to Z, a to z changed. *)
Inductive case_variant : string -> string -> Prop :=
| cv_empty : case_variant EmptyString EmptyString
| cv_char a b s t :
    same_letter a b -> case_variant s t ->
    case_variant (String a s) (String b t).

(** A text that [str.lower] produces from ASCII text only: its bytes are
    ASCII and none is the letter k (the Kelvin sign, which is not ASCII,
    has k as its lower case; no other character outside ASCII has a lower
    case within ASCII). *)
Definition plain (t : string) : bool :=
  is_ascii t && negb (has_char "k"%char t).

Section LetterCase.

Lemma is_upper_spec (c : ascii) :
  is_upper c = true <-> (65 <= nat_of_ascii c <= 90)%nat.
Proof.
  unfold is_upper. rewrite andb_true_iff, !Nat.leb_le. tauto.
Qed.

Lemma lower_ascii_code (c : ascii) :
  nat_of_ascii (lower_ascii c) =
  if is_upper c then (nat_of_ascii c + 32)%nat else nat_of_ascii c.
Proof.
  unfold lower_ascii. destruct (is_upper c) eqn:E; [|reflexivity].
  apply is_upper_spec in E. apply nat_ascii_embedding. lia.
Qed.

Lemma code_inj (a b : ascii) : nat_of_ascii a = nat_of_ascii b -> a = b.
Proof.
  intros E. rewrite <- (ascii_nat_embedding a), <- (ascii_nat_embedding b).
  now rewrite E.
Qed.

Lemma lower_ascii_same_letter (a b : ascii) :
  lower_ascii a = lower_ascii b <-> same_letter a b.
Proof.
  split.
  - intros E. apply (f_equal nat_of_ascii) in E.
    rewrite !lower_ascii_code in E. unfold same_letter.
    destruct (is_upper a) eqn:Ea, (is_upper b) eqn:Eb.
    + left. apply code_inj. lia.
    + right. left. split; [reflexivity | lia].
    + right. right. split; [reflexivity | lia].
    + left. now apply code_inj.
  - intros [-> | [[Ua E] | [Ub E]]]; [reflexivity | |];
      apply code_inj; rewrite !lower_ascii_code.
    + rewrite Ua. apply is_upper_spec in Ua.
      destruct (is_upper b) eqn:Eb; [apply is_upper_spec in Eb|]; lia.
    + rewrite Ub. apply is_upper_spec in Ub.
      destruct (is_upper a) eqn:Ea'; [apply is_upper_spec in Ea'|]; lia.
Qed.

(** Two strings have the same ASCII lower-case form exactly when one is a
    case variant of the other. *)
Lemma ascii_lower_eq_iff (s t : string) :
  ascii_lower s = ascii_lower t <-> case_variant s t.
Proof.
  split.
  - revert t. induction s as [|a s IH]; intros [|b t] E; simpl in E;
      try discriminate; [constructor|].
    injection E as Ec Es. constructor.
    + now apply lower_ascii_same_letter.
    + now apply IH.
  - induction 1 as [|a b s t L _ IH]; simpl; [reflexivity|].
    apply lower_ascii_same_letter in L. now rewrite L, IH.
Qed.

Lemma case_variant_refl (s : string) : case_variant s s.
Proof. now apply ascii_lower_eq_iff. Qed.

Lemma case_variant_sym (s t : string) : case_variant s t -> case_variant t s.
Proof. rewrite <- !ascii_lower_eq_iff. congruence. Qed.

Lemma case_variant_trans (s t u : string) :
  case_variant s t -> case_variant t u -> case_variant s u.
Proof. rewrite <- !ascii_lower_eq_iff. congruence. Qed.

Lemma is_ascii_ascii_lower (s : string) : is_ascii (ascii_lower s) = is_ascii s.
Proof.
  induction s as [|c s IH]; simpl; [reflexivity|]. rewrite IH. f_equal.
  rewrite lower_ascii_code. destruct (is_upper c) eqn:U; [|reflexivity].
  apply is_upper_spec in U.
  destruct (Nat.ltb_spec (nat_of_ascii c + 32) 128),
    (Nat.ltb_spec (nat_of_ascii c) 128); try reflexivity; lia.
Qed.

Lemma isin_In (x : string) (l : list string) : isin x l = true <-> In x l.
Proof.
  induction l as [|y l IH]; simpl; [easy|].
  rewrite orb_true_iff, String.eqb_eq, IH. intuition congruence.
Qed.

End LetterCase.

(* ================================================================== *)
(** ** The text functions of Python

    [lower] is [str.lower] (also behind [Series.str.lower]) and [repr] is
    [repr] on a [str].  Both are defined by the Unicode tables of the
    interpreter.  The program is embedded over any pair of functions with
    the four properties below, which hold of Python's:
    - changing the case of ASCII letters in a text does not change its
      lower-case form;
    - on ASCII text, [lower] folds the letters A to Z and nothing else;
    - a lower-case form that is ASCII and has no k comes from ASCII text;
    - the [repr] of a text starts with a quote character. *)

Class Text : Type := {
  lower : string -> string;
  repr : string -> string;
  lower_case_variant : forall s t, case_variant s t -> lower s = lower t;
  lower_ascii_text : forall s, is_ascii s = true -> lower s = ascii_lower s;
  lower_from_ascii :
    forall s t, lower s = t -> plain t = true -> is_ascii s = true;
  repr_quoted :
    forall s, exists rest,
      repr s = String squote rest \/ repr s = String dquote rest
}.

Lemma ascii_lower_from_ascii (s t : string) :
  ascii_lower s = t -> plain t = true -> is_ascii s = true.
Proof.
  intros <- P. unfold plain in P. apply andb_true_iff in P as [P _].
  now rewrite is_ascii_ascii_lower in P.
Qed.

Lemma ascii_repr_quoted (s : string) :
  exists rest,
    ascii_repr s = String squote rest \/ ascii_repr s = String dquote rest.
Proof.
  unfold ascii_repr. destruct (_ && _); eexists; [right | left]; reflexivity.
Qed.

(** The text functions on ASCII text. *)
#[export] Instance ascii_text : Text := {|
  lower := ascii_lower;
  repr := ascii_repr;
  lower_case_variant := fun s t V => proj2 (ascii_lower_eq_iff s t) V;
  lower_ascii_text := fun s _ => eq_refl;
  lower_from_ascii := ascii_lower_from_ascii;
  repr_quoted := ascii_repr_quoted
|}.

Section TextFacts.

Context `{Text}.

(** For a word [t] of lower-case ASCII letters without k, the texts whose
    lower-case form is [t] are the case variants of [t]. *)
Lemma lower_word_iff (s t : string) :
  plain t = true -> ascii_lower t = t ->
  (lower s = t <-> case_variant s t).
Proof.
  intros P L. split.
  - intros E. pose proof (lower_from_ascii s t E P) as A.
    rewrite (lower_ascii_text s A) in E.
    apply ascii_lower_eq_iff. congruence.
  - intros V. rewrite (lower_case_variant s t V).
    unfold plain in P. apply andb_true_iff in P as [P _].
    now rewrite (lower_ascii_text t P).
Qed.

(** [repr(l)] for a list of strings: [['low', 'medium']] *)
Definition repr_list (l : list string) : string :=
  "[" ++ join ", " (map repr l) ++ "]".

(** [l.index(x)] *)
Fixpoint index_from (x : string) (l : list string) (i : nat) : result nat :=
  match l with
  | [] => Raise (ValueError (repr x ++ " is not in list"))
  | y :: l' => if String.eqb y x then Return i else index_from x l' (S i)
  end.

Definition index (l : list string) (x : string) : result nat :=
  index_from x l 0%nat.

End TextFacts.

(* ================================================================== *)
(** ** The dtype of a numeric column

    [column_sum] is [Series.sum()], [lt_100] and [lt_200] are the tests
    [x < 100] and [x < 200] of the classifier. *)

Class Dtype (T : Type) : Type := {
  column_sum : list T -> T;
  lt_100 : T -> bool;
  lt_200 : T -> bool
}.

(** The exact sum of a list of integers. *)
Definition exact_sum (l : list Z) : Z := fold_right Z.add 0 l.

(** Two's-complement wrap-around into the range of a 64-bit integer. *)
Definition wrap64 (z : Z) : Z := (z + 2 ^ 63) mod 2 ^ 64 - 2 ^ 63.

(** An [int64] column: the sum is taken modulo 2^64. *)
#[export] Instance int64 : Dtype Z := {|
  column_sum := fun l => wrap64 (exact_sum l);
  lt_100 := fun x => x <? 100;
  lt_200 := fun x => x <? 200
|}.

(** A [float64] column.  The sum skips NaN (it counts as 0).  A selection
    of fewer than eight rows is added in row order; a longer one is added
    in blocks by numpy, in an order that the program does not fix:
    [block_sum] stands for it. *)
Definition fill_nan (x : float) : float :=
  if PrimFloat.is_nan x then 0%float else x.

Definition add_in_order (l : list float) : float :=
  match l with
  | [] => 0%float
  | x :: l' => fold_left (fun acc y => PrimFloat.add acc (fill_nan y)) l' (fill_nan x)
  end.

Definition float64 (block_sum : list float -> float) : Dtype float := {|
  column_sum := fun l => if (length l <? 8)%nat then add_in_order l else block_sum l;
  lt_100 := fun x => PrimFloat.ltb x 100%float;
  lt_200 := fun x => PrimFloat.ltb x 200%float
|}.

(* ================================================================== *)
(** ** The reference tables

    One record type per table, with the column names of the CSV files.
    The climate table is written for any dtype [T] of its rainfall
    column. *)

Module Climate.
Record row (T : Type) : Type := mk
  { state : string; month : string; avg_rainfall_mm : T }.
Arguments mk {T} state month avg_rainfall_mm.
Arguments state {T} r.
Arguments month {T} r.
Arguments avg_rainfall_mm {T} r.
End Climate.

Module Soil.
Record row : Type := mk
  { state : string; soil_level : string }.
End Soil.

Module State.
Record row : Type := mk
  { state : string; agro_zone : string }.
End State.

Module Maize.
Record row : Type := mk
  { variety_name : string;
    adaptation_zone : string;
    drought_tolerance : string;
    low_n_tolerance : string;
    yield_potential : Z;
    maturity_group : string;
    grain_type : string }.
End Maize.

Module Fertilizer.
Record plan : Type := mk
  { N : Z; P2O5 : Z; K2O : Z; notes : string }.
End Fertilizer.

(* ================================================================== *)
(** ** [DataFrame.sort_values("yield_potential", ascending=False)]

    The program calls [sort_values] without a [kind], that is with the
    default sort kind of pandas, which returns the rows in descending order
    of the key.  The call is an interface: any function that permutes the
    rows into descending order of [yield_potential]. *)

Definition yield_ge (a b : Maize.row) : Prop :=
  Maize.yield_potential b <= Maize.yield_potential a.

Class SortValues : Type := {
  sort_values : list Maize.row -> list Maize.row;
  sort_values_perm : forall df, Permutation df (sort_values df);
  sort_values_sorted : forall df, Sorted yield_ge (sort_values df)
}.

(** Two insertion sorts that meet the interface and keep rows of equal
    yield in table order.  [stable_sort] inserts the rows from the last to
    the first, each before the rows of equal yield; [stable_sort_left]
    inserts them from the first to the last, each after the rows of equal
    yield. *)
Fixpoint insert_first (x : Maize.row) (l : list Maize.row) : list Maize.row :=
  match l with
  | [] => [x]
  | y :: l' =>
      if Maize.yield_potential y <=? Maize.yield_potential x
      then x :: y :: l'
      else y :: insert_first x l'
  end.

Fixpoint insert_last (x : Maize.row) (l : list Maize.row) : list Maize.row :=
  match l with
  | [] => [x]
  | y :: l' =>
      if Maize.yield_potential y <? Maize.yield_potential x
      then x :: y :: l'
      else y :: insert_last x l'
  end.

Definition stable_sort (df : list Maize.row) : list Maize.row :=
  fold_right insert_first [] df.

Definition stable_sort_left (df : list Maize.row) : list Maize.row :=
  fold_left (fun sorted x => insert_last x sorted) df [].

(* ================================================================== *)
(** ** The [MaizeAdvisorySystem] class and its report *)

Record MaizeAdvisorySystem (T : Type) : Type := mkSystem
  { maize_df : list Maize.row;
    state_df : list State.row;
    climate_df : list (Climate.row T);
    soil_df : list Soil.row;
    months_order : list string }.
Arguments mkSystem {T} maize_df state_df climate_df soil_df months_order.
Arguments maize_df {T} m.
Arguments state_df {T} m.
Arguments climate_df {T} m.
Arguments soil_df {T} m.
Arguments months_order {T} m.

(** [__init__] *)
Definition init {T : Type} (maize_df : list Maize.row)
    (state_df : list State.row) (climate_df : list (Climate.row T))
    (soil_df : list Soil.row) : MaizeAdvisorySystem T :=
  mkSystem maize_df state_df climate_df soil_df
    [ "January"; "February"; "March"; "April"; "May"; "June";
      "July"; "August"; "September"; "October"; "November"; "December" ].

(** What [generate_report] computes and then prints. *)
Record Report : Type := mkReport
  { report_state : string;
    report_agro_zone : string;
    report_planting_month : string;
    report_soil_fertility : string;
    report_climate_class : string;
    report_drought_risk : string;
    report_soil_risk : string;
    report_pest_risk : string;
    report_fertilizer : Fertilizer.plan;
    report_irrigation_note : string;
    report_pest_note : string;
    report_varieties : list Maize.row }.

(* ================================================================== *)
(** ** The program *)

Section Program.

Context `{Text}.

(** *** Climate and environmental risk assessment *)

(** [[months_order[(start_idx + i) % 12] for i in range(3)]] *)
Definition window_months (months_order : list string) (start_idx : nat)
  : result (list string) :=
  comprehension
    (fun i => getitem months_order ((start_idx + i) mod 12)%nat)
    [0; 1; 2]%nat.

(** The rows selected by the mask
    [(df["state"] == state) & (df["month"].isin(months))]. *)
Definition window_rows {T : Type} (climate_df : list (Climate.row T))
    (state : string) (months : list string) : list (Climate.row T) :=
  filter (fun r => String.eqb (Climate.state r) state
                   && isin (Climate.month r) months) climate_df.

(** The local [rainfall_sum] of [climate_class_from_rainfall]: the window
    is built, then the rainfall column of the selected rows is summed. *)
Definition rainfall_sum {T : Type} `{Dtype T} (climate_df : list (Climate.row T))
    (state planting_month : string) (months_order : list string)
  : result T :=
  start_idx <- index months_order planting_month ;;
  months <- window_months months_order start_idx ;;
  Return (column_sum
            (map Climate.avg_rainfall_mm (window_rows climate_df state months))).

Definition climate_class_from_rainfall {T : Type} `{Dtype T}
    (climate_df : list (Climate.row T))
    (state planting_month : string) (months_order : list string)
  : result string :=
  rainfall_sum <- rainfall_sum climate_df state planting_month months_order ;;
  if lt_100 rainfall_sum then Return "Low"
  else if lt_200 rainfall_sum then Return "Medium"
  else Return "High".

Definition drought_risk_from_climate (climate_class : string)
  : string * string :=
  let c := lower climate_class in
  if String.eqb c "low" then ("High", "Frequent irrigation required")
  else if String.eqb c "medium" then ("Medium", "Moderate irrigation recommended")
  else if String.eqb c "high" then ("Low", "Irrigation usually not required")
  else ("Unknown", "Unknown").

(** *** Soil fertility and input recommendations *)

Definition soil_fertility_risk (soil_level : string) : string :=
  let s := lower soil_level in
  if String.eqb s "low" then "High"
  else if String.eqb s "medium" then "Medium"
  else if String.eqb s "high" then "Low"
  else "Unknown".

Definition newline : string := String (ascii_of_nat 10) EmptyString.

Definition recommend_fertilizer (soil_level : string) : Fertilizer.plan :=
  let s := lower soil_level in
  if String.eqb s "low" then
    Fertilizer.mk 120 60 60
      ("Basal NPK 15-15-15 at 400 kg/ha + Urea top-dress at 125 kg/ha and MOP 100 kg/ha recommended."
       ++ newline ++ "Split N: half at planting, half 4â€“6 weeks later.")
  else if String.eqb s "medium" then
    Fertilizer.mk 60 30 30
      "NPK 15-15-15 at moderate levels required + Split Urea fertilizer application"
  else if String.eqb s "high" then
    Fertilizer.mk 30 0 0 "Minimal fertilizer (only urea) input required."
  else Fertilizer.mk 0 0 0 "No recommendation".

(** *** Pest and disease risk assessment *)

Definition pest_disease_risk (drought_risk soil_risk : string) : string :=
  if String.eqb drought_risk "High" || String.eqb soil_risk "High" then "High"
  else if String.eqb drought_risk "Medium" || String.eqb soil_risk "Medium"
  then "Medium"
  else "Low".

Definition pest_disease_recommendation (risk_level : string) : string :=
  let r := lower risk_level in
  if String.eqb r "high" then
    "Intensive monitoring and timely pesticide application recommended."
  else if String.eqb r "medium" then
    "Regular monitoring with targeted interventions if needed."
  else "Routine monitoring sufficient.".

(** *** Risk formatting *)

(** The escape character written [\033] in the program. *)
Definition esc : string := String (ascii_of_nat 27) EmptyString.

Definition color_risk (risk : string) : string :=
  let r := lower risk in
  if String.eqb r "high" then esc ++ "[91mðŸ”´ High" ++ esc ++ "[0m"
  else if String.eqb r "medium" then esc ++ "[93mðŸŸ¡ Medium" ++ esc ++ "[0m"
  else if String.eqb r "low" then esc ++ "[92mðŸŸ¢ Low" ++ esc ++ "[0m"
  else "Unknown".

(** *** The methods of [MaizeAdvisorySystem] *)

(** [soil_df[soil_df["state"] == state]["soil_level"].str.lower().tolist()] *)
Definition available_levels {T : Type} (self : MaizeAdvisorySystem T)
    (state : string) : list string :=
  map (fun r => lower (Soil.soil_level r))
      (filter (fun r => String.eqb (Soil.state r) state) (soil_df self)).

(** The text of the error raised by [validate_soil_level]. *)
Definition soil_level_message (soil_level state : string)
    (available : list string) : string :=
  "Soil fertility level '" ++ soil_level ++ "' not valid for state '"
  ++ state ++ "'. " ++ "Available levels: " ++ repr_list available.

Definition validate_soil_level {T : Type} (self : MaizeAdvisorySystem T)
    (state soil_level : string) : result unit :=
  let available := available_levels self state in
  if negb (isin (lower soil_level) available)
  then Raise (ValueError (soil_level_message soil_level state available))
  else Return tt.

(** The three selections of [recommend_varieties], before the ranking. *)
Definition zone_filter (agro_zone : string) (df : list Maize.row) :=
  filter (fun r => String.eqb (Maize.adaptation_zone r) agro_zone) df.

Definition tolerance_filter (col : Maize.row -> string) (risk : string)
    (df : list Maize.row) : list Maize.row :=
  if String.eqb risk "High" then
    filter (fun r => String.eqb (lower (col r)) "high") df
  else if String.eqb risk "Medium" then
    filter (fun r => isin (lower (col r)) ["medium"; "high"]) df
  else df.

Definition suitable_varieties {T : Type} (self : MaizeAdvisorySystem T)
    (agro_zone drought_risk soil_risk : string) : list Maize.row :=
  let df := zone_filter agro_zone (maize_df self) in
  let df := tolerance_filter Maize.drought_tolerance drought_risk df in
  let df := tolerance_filter Maize.low_n_tolerance soil_risk df in
  df.

Definition recommend_varieties `{SortValues} {T : Type}
    (self : MaizeAdvisorySystem T)
    (agro_zone drought_risk soil_risk : string) : list Maize.row :=
  let df := suitable_varieties self agro_zone drought_risk soil_risk in
  firstn 3 (sort_values df).

(** [df[df["state"] == state]["agro_zone"].iloc[0]] *)
Definition agro_zone_of {T : Type} (self : MaizeAdvisorySystem T)
    (state : string) : result string :=
  match filter (fun r => String.eqb (State.state r) state) (state_df self) with
  | r :: _ => Return (State.agro_zone r)
  | [] => Raise (IndexError "single positional indexer is out-of-bounds")
  end.

Definition generate_report `{SortValues} {T : Type} `{Dtype T}
    (self : MaizeAdvisorySystem T)
    (state planting_month soil_level : string) : result Report :=
  validate_soil_level self state soil_level ;;;
  agro_zone <- agro_zone_of self state ;;
  climate_class <- climate_class_from_rainfall
                     (climate_df self) state planting_month (months_order self) ;;
  let (drought_risk, irrigation_note) := drought_risk_from_climate climate_class in
  let soil_risk := soil_fertility_risk soil_level in
  let pest_risk := pest_disease_risk drought_risk soil_risk in
  let pest_note := pest_disease_recommendation pest_risk in
  let fertilizer := recommend_fertilizer soil_level in
  let varieties := recommend_varieties self agro_zone drought_risk soil_risk in
  Return (mkReport state agro_zone planting_month soil_level climate_class
            drought_risk soil_risk pest_risk fertilizer irrigation_note
            pest_note varieties).

End Program.

(* ================================================================== *)
(** ** Notions used to state the properties

    These are written independently of the program text. *)

(** The calendar successor of a month name. *)
Definition next_month (m : string) : string :=
  if String.eqb m "January" then "February"
  else if String.eqb m "February" then "March"
  else if String.eqb m "March" then "April"
  else if String.eqb m "April" then "May"
  else if String.eqb m "May" then "June"
  else if String.eqb m "June" then "July"
  else if String.eqb m "July" then "August"
  else if String.eqb m "August" then "September"
  else if String.eqb m "September" then "October"
  else if String.eqb m "October" then "November"
  else if String.eqb m "November" then "December"
  else if String.eqb m "December" then "January"
  else m.

Definition calendar_months : list string :=
  [ "January"; "February"; "March"; "April"; "May"; "June";
    "July"; "August"; "September"; "October"; "November"; "December" ].

(** The planting month and the two months after it. *)
Definition planting_window (m : string) : list string :=
  [m; next_month m; next_month (next_month m)].

(** The records of a region whose month lies in the planting window, in
    table order. *)
Definition matched_records {T : Type} (df : list (Climate.row T))
    (region m : string) : list (Climate.row T) :=
  filter (fun r => String.eqb (Climate.state r) region
                   && existsb (String.eqb (Climate.month r)) (planting_window m))
         df.

(** The exact (mathematical) sum of the rainfall of integer records. *)
Definition rainfall_total (df : list (Climate.row Z)) : Z :=
  exact_sum (map Climate.avg_rainfall_mm df).

(** The range of a 64-bit integer. *)
Definition in_int64 (z : Z) : Prop := - 2 ^ 63 <= z < 2 ^ 63.

(** The threshold rule on an integer. *)
Definition class_of_sum (total : Z) : string :=
  if total <? 100 then "Low" else if total <? 200 then "Medium" else "High".


(** One record's rainfall is raised, everything else is unchanged. *)
Definition raise_rainfall {T : Type} (r : Climate.row T) (v : T)
  : Climate.row T :=
  Climate.mk (Climate.state r) (Climate.month r) v.

(** A tolerance value meets a risk: High wanted for a High risk, Medium
    or High for a Medium risk, anything for another risk. *)
Definition tolerates `{Text} (risk tolerance : string) : Prop :=
  (risk = "High" -> lower tolerance = "high")
  /\ (risk = "Medium" -> lower tolerance = "medium" \/ lower tolerance = "high").

(** The error of the soil-level check: a [ValueError] whose text names
    the level and lists the levels available. *)
Definition InvalidInput `{Text} {T : Type} (self : MaizeAdvisorySystem T)
    (state soil_level : string) (e : exn) : Prop :=
  e = ValueError
        ("Soil fertility level '" ++ soil_level ++ "' not valid for state '"
         ++ state ++ "'. Available levels: "
         ++ repr_list (available_levels self state)).

(** A soil level is listed for a region, letter case aside: a row of the
    soil table for the region carries a level with the same lower-case
    form. *)
Definition listed_level `{Text} {T : Type} (self : MaizeAdvisorySystem T)
    (state soil_level : string) : Prop :=
  exists r, In r (soil_df self) /\ Soil.state r = state
            /\ lower (Soil.soil_level r) = lower soil_level.


(** A report with another text in its soil-fertility line. *)
Definition with_soil_fertility (rep : Report) (soil_level : string) : Report :=
  mkReport (report_state rep) (report_agro_zone rep)
    (report_planting_month rep) soil_level (report_climate_class rep)
    (report_drought_risk rep) (report_soil_risk rep) (report_pest_risk rep)
    (report_fertilizer rep) (report_irrigation_note rep)
    (report_pest_note rep) (report_varieties rep).

(* ================================================================== *)
(** ** Tables used in the examples *)

(** The climate table of the test suite, an [int64] column. *)
Definition kaduna_climate : list (Climate.row Z) :=
  [ Climate.mk "Kaduna" "July" 40;
    Climate.mk "Kaduna" "August" 50;
    Climate.mk "Kaduna" "September" 60 ].

(** An [int64] column at the upper end of its range: 2^63 - 1 in July,
    and an August rainfall raised from 0 to 1. *)
Definition flood_climate_raised : list (Climate.row Z) :=
  [Climate.mk "Kaduna" "July" 9223372036854775807]
    ++ raise_rainfall (Climate.mk "Kaduna" "August" 0) 1 :: [].

(** A [float64] column, and the same rows in another order. *)
Definition decimal_climate : list (Climate.row float) :=
  [ Climate.mk "Kaduna" "July" 33.4%float;
    Climate.mk "Kaduna" "August" 33.3%float;
    Climate.mk "Kaduna" "September" 33.3%float ].

Definition decimal_climate_reordered : list (Climate.row float) :=
  [ Climate.mk "Kaduna" "August" 33.3%float;
    Climate.mk "Kaduna" "September" 33.3%float;
    Climate.mk "Kaduna" "July" 33.4%float ].

(** Two varieties of one zone with the same yield. *)
Definition tied_catalog : list Maize.row :=
  [ Maize.mk "A" "Sudan Savanna" "High" "High" 5 "Early" "White";
    Maize.mk "B" "Sudan Savanna" "High" "High" 5 "Early" "Yellow" ].

(** Three high-yield varieties of medium drought tolerance and one
    low-yield variety of high drought tolerance. *)
Definition crowded_catalog : list Maize.row :=
  [ Maize.mk "M1" "Sahel" "Medium" "High" 9 "Early" "White";
    Maize.mk "M2" "Sahel" "Medium" "High" 8 "Early" "White";
    Maize.mk "M3" "Sahel" "Medium" "High" 7 "Late" "Yellow";
    Maize.mk "H1" "Sahel" "High" "High" 3 "Late" "Yellow" ].



(** The tables of the test suite. *)
Definition kaduna_system : MaizeAdvisorySystem Z :=
  init
    [ Maize.mk "V1" "Northern Guinea Savanna" "High" "High" 6 "Early" "White";
      Maize.mk "V2" "Northern Guinea Savanna" "Medium" "Medium" 5 "Medium" "Yellow";
      Maize.mk "V3" "Northern Guinea Savanna" "High" "High" 7 "Late" "White";
      Maize.mk "V4" "Northern Guinea Savanna" "Low" "High" 4 "Early" "Yellow" ]
    [ State.mk "Kaduna" "Northern Guinea Savanna" ]
    kaduna_climate
    [ Soil.mk "Kaduna" "Low"; Soil.mk "Kaduna" "Medium"; Soil.mk "Kaduna" "High" ].

(** A system with a catalog and no other table. *)
Definition catalog_only (catalog : list Maize.row) : MaizeAdvisorySystem Z :=
  init catalog [] [] [].

(* ================================================================== *)
(** ** The risk mappers *)

(** C4. [pest_disease_risk] is High when either argument is "High";
    otherwise Medium when either argument is "Medium"; otherwise Low.  The
    High test comes first: (High, Unknown) gives High, (Medium, Unknown)
    gives Medium and (Unknown, Unknown) gives Low. *)
Theorem pest_disease_risk_precedence (drought_risk soil_risk : string) :
  ((drought_risk = "High" \/ soil_risk = "High") ->
     pest_disease_risk drought_risk soil_risk = "High")
  /\ (~ (drought_risk = "High" \/ soil_risk = "High") ->
      (drought_risk = "Medium" \/ soil_risk = "Medium") ->
      pest_disease_risk drought_risk soil_risk = "Medium")
  /\ (~ (drought_risk = "High" \/ soil_risk = "High") ->
      ~ (drought_risk = "Medium" \/ soil_risk = "Medium") ->
      pest_disease_risk drought_risk soil_risk = "Low")
  /\ pest_disease_risk "High" "Unknown" = "High"
  /\ pest_disease_risk "Medium" "Unknown" = "Medium"
  /\ pest_disease_risk "Unknown" "Unknown" = "Low".
Proof.
  unfold pest_disease_risk.
  destruct (String.eqb_spec drought_risk "High") as [dh|dh];
    destruct (String.eqb_spec soil_risk "High") as [sh|sh];
    destruct (String.eqb_spec drought_risk "Medium") as [dm|dm];
    destruct (String.eqb_spec soil_risk "Medium") as [sm|sm];
    simpl; repeat split; try reflexivity; intros; tauto.
Qed.

Lemma pest_disease_risk_precedence_witness :
  pest_disease_risk "Medium" "Low" = "Medium".
Proof.
  destruct (pest_disease_risk_precedence "Medium" "Low") as (_ & H & _).
  apply H.
  - intros [E | E]; discriminate E.
  - left. reflexivity.
Defined.

Lemma drought_risk_case_insensitive `{Text} (c c' : string) :
  case_variant c c' ->
  drought_risk_from_climate c = drought_risk_from_climate c'.
Proof.
  intros V. apply lower_case_variant in V.
  unfold drought_risk_from_climate. now rewrite V.
Qed.

Lemma soil_risk_case_insensitive `{Text} (s s' : string) :
  case_variant s s' -> soil_fertility_risk s = soil_fertility_risk s'.
Proof.
  intros V. apply lower_case_variant in V.
  unfold soil_fertility_risk. now rewrite V.
Qed.

(** C6, as the specification words it, fails for [pest_disease_risk]:
    "high" is a case variant of "High", yet the two give different risks. *)
Lemma pest_disease_risk_case_sensitive :
  case_variant "High" "high"
  /\ pest_disease_risk "High" "Low" = "High"
  /\ pest_disease_risk "high" "Low" = "Low"
  /\ pest_disease_risk "High" "Low" <> pest_disease_risk "high" "Low".
Proof.
  split; [now apply ascii_lower_eq_iff|].
  repeat split. discriminate.
Qed.

(** C6, amended. [drought_risk_from_climate] and [soil_fertility_risk]
    give the same result on every case variant of their input.
    [pest_disease_risk] compares its arguments with "High" and "Medium"
    as written; fed with the outputs of the two other mappers, as the
    program does, the composition is insensitive to the case of the
    climate class and of the soil level. *)
Theorem risk_mappers_case `{Text} (c c' s s' : string) :
  case_variant c c' -> case_variant s s' ->
  drought_risk_from_climate c = drought_risk_from_climate c'
  /\ soil_fertility_risk s = soil_fertility_risk s'
  /\ pest_disease_risk (fst (drought_risk_from_climate c)) (soil_fertility_risk s)
     = pest_disease_risk (fst (drought_risk_from_climate c')) (soil_fertility_risk s').
Proof.
  intros Vc Vs.
  rewrite (drought_risk_case_insensitive c c' Vc).
  rewrite (soil_risk_case_insensitive s s' Vs).
  repeat split.
Qed.

Lemma risk_mappers_case_witness :
  drought_risk_from_climate "Low" = drought_risk_from_climate "LOW"
  /\ soil_fertility_risk "Medium" = soil_fertility_risk "mEDIUM"
  /\ pest_disease_risk (fst (drought_risk_from_climate "Low")) (soil_fertility_risk "Medium")
     = pest_disease_risk (fst (drought_risk_from_climate "LOW")) (soil_fertility_risk "mEDIUM").
Proof.
  apply (risk_mappers_case "Low" "LOW" "Medium" "mEDIUM").
  - apply ascii_lower_eq_iff. reflexivity.
  - apply ascii_lower_eq_iff. reflexivity.
Defined.

(* ================================================================== *)
(** ** The climate classifier *)

Lemma init_months_order {T : Type} a b (c : list (Climate.row T)) d :
  months_order (init a b c d) = calendar_months.
Proof. reflexivity. Qed.

Section Classifier.

Context `{Text} {T : Type} `{Dtype T}.
Variables (df : list (Climate.row T)) (state : string).

(** The test of the classifier on a column sum. *)
Definition class_of (s : T) : string :=
  if lt_100 s then "Low" else if lt_200 s then "Medium" else "High".

(** For each of the twelve names, [index] and the modular indexing of
    the program produce the planting window. *)
Lemma window_of_month (m : string) :
  In m calendar_months ->
  exists i, index calendar_months m = Return i
            /\ window_months calendar_months i = Return (planting_window m).
Proof.
  unfold calendar_months. simpl.
  intros K; repeat (destruct K as [<- | K]; [eexists; split; reflexivity|]).
  destruct K.
Qed.

Lemma index_from_missing (m : string) (l : list string) (i : nat) :
  ~ In m l -> index_from m l i = Raise (ValueError (repr m ++ " is not in list")).
Proof.
  revert i. induction l as [|y l IH]; intros i K; simpl; [reflexivity|].
  destruct (String.eqb_spec y m) as [->|_].
  - exfalso. apply K. now left.
  - apply IH. intros J. apply K. now right.
Qed.

Lemma isin_existsb (x : string) (l : list string) :
  isin x l = existsb (String.eqb x) l.
Proof. induction l as [|y l IH]; simpl; [reflexivity | now rewrite IH]. Qed.

Lemma window_rows_matched (m : string) :
  window_rows df state (planting_window m) = matched_records df state m.
Proof.
  unfold window_rows, matched_records. apply filter_ext.
  intros r. now rewrite isin_existsb.
Qed.

Lemma rainfall_sum_matched (m : string) :
  In m calendar_months ->
  rainfall_sum df state m calendar_months
  = Return (column_sum (map Climate.avg_rainfall_mm (matched_records df state m))).
Proof.
  intros K. destruct (window_of_month m K) as (i & Hi & Hw).
  unfold rainfall_sum. rewrite Hi. simpl bind. rewrite Hw. simpl bind.
  now rewrite window_rows_matched.
Qed.

Lemma classify_matched (m : string) :
  In m calendar_months ->
  climate_class_from_rainfall df state m calendar_months
  = Return (class_of
              (column_sum (map Climate.avg_rainfall_mm (matched_records df state m)))).
Proof.
  intros K. unfold climate_class_from_rainfall.
  rewrite (rainfall_sum_matched m K). simpl bind. unfold class_of.
  destruct (lt_100 _); [reflexivity|]. now destruct (lt_200 _).
Qed.

Lemma classify_missing (m : string) :
  ~ In m calendar_months ->
  climate_class_from_rainfall df state m calendar_months
  = Raise (ValueError (repr m ++ " is not in list")).
Proof.
  intros K. unfold climate_class_from_rainfall, rainfall_sum, index.
  now rewrite (index_from_missing m calendar_months 0 K).
Qed.

Lemma class_of_range (s : T) : In (class_of s) ["Low"; "Medium"; "High"].
Proof.
  unfold class_of. destruct (lt_100 s); [|destruct (lt_200 s)]; simpl; tauto.
Qed.

Lemma matched_records_In (m : string) (r : Climate.row T) :
  In r (matched_records df state m) <->
  In r df /\ Climate.state r = state
  /\ In (Climate.month r) (planting_window m).
Proof.
  unfold matched_records.
  rewrite filter_In, andb_true_iff, String.eqb_eq, existsb_exists.
  split.
  - intros (I & E & x & Hx & Ex). apply String.eqb_eq in Ex. subst x. tauto.
  - intros (I & E & W). repeat split; trivial.
    exists (Climate.month r). split; [assumption | apply String.eqb_refl].
Qed.

End Classifier.

Lemma matched_records_perm {T : Type} (l1 l2 : list (Climate.row T))
    (state m : string) :
  Permutation l1 l2 ->
  Permutation (matched_records l1 state m) (matched_records l2 state m).
Proof.
  unfold matched_records. induction 1; simpl.
  - constructor.
  - destruct (_ && _); [now constructor | assumption].
  - repeat destruct (_ && _); try reflexivity. apply perm_swap.
  - etransitivity; eassumption.
Qed.

(** *** The [int64] column *)

Section Int64.

Lemma wrap64_in_range (z : Z) : in_int64 z -> wrap64 z = z.
Proof.
  unfold in_int64, wrap64. intros R. rewrite Z.mod_small; lia.
Qed.

Lemma wrap64_range (z : Z) : in_int64 (wrap64 z).
Proof.
  unfold in_int64, wrap64.
  pose proof (Z.mod_pos_bound (z + 2 ^ 63) (2 ^ 64) eq_refl). lia.
Qed.

Lemma wrap64_add_r (a b : Z) : wrap64 (a + wrap64 b) = wrap64 (a + b).
Proof.
  unfold wrap64. f_equal.
  replace (a + ((b + 2 ^ 63) mod 2 ^ 64 - 2 ^ 63) + 2 ^ 63)
    with (a + (b + 2 ^ 63) mod 2 ^ 64) by lia.
  rewrite Z.add_mod_idemp_r by discriminate. f_equal. lia.
Qed.

Lemma wrap64_add (a b : Z) : wrap64 (wrap64 a + wrap64 b) = wrap64 (a + b).
Proof.
  rewrite wrap64_add_r, Z.add_comm, wrap64_add_r. f_equal. lia.
Qed.

Lemma exact_sum_app (l1 l2 : list Z) :
  exact_sum (l1 ++ l2) = exact_sum l1 + exact_sum l2.
Proof. unfold exact_sum. induction l1 as [|x l1 IH]; simpl; lia. Qed.

Lemma rainfall_total_app (l1 l2 : list (Climate.row Z)) :
  rainfall_total (l1 ++ l2) = rainfall_total l1 + rainfall_total l2.
Proof. unfold rainfall_total. now rewrite map_app, exact_sum_app. Qed.

Lemma rainfall_total_perm (l1 l2 : list (Climate.row Z)) :
  Permutation l1 l2 -> rainfall_total l1 = rainfall_total l2.
Proof. unfold rainfall_total, exact_sum. induction 1; simpl in *; lia. Qed.

Lemma class_of_sum_cases (t : Z) :
  (t < 100 /\ class_of_sum t = "Low")
  \/ (100 <= t < 200 /\ class_of_sum t = "Medium")
  \/ (200 <= t /\ class_of_sum t = "High").
Proof.
  unfold class_of_sum.
  destruct (Z.ltb_spec t 100); [now left|].
  destruct (Z.ltb_spec t 200); [right; left | right; right]; split;
    (lia || reflexivity).
Qed.


Context `{Text}.

Lemma rainfall_sum_int64 (df : list (Climate.row Z)) (state m : string) :
  In m calendar_months ->
  rainfall_sum df state m calendar_months
  = Return (wrap64 (rainfall_total (matched_records df state m))).
Proof. intros K. now rewrite rainfall_sum_matched. Qed.

Lemma classify_int64 (df : list (Climate.row Z)) (state m : string) :
  In m calendar_months ->
  climate_class_from_rainfall df state m calendar_months
  = Return (class_of_sum (wrap64 (rainfall_total (matched_records df state m)))).
Proof. intros K. now rewrite classify_matched. Qed.

End Int64.

(** C2, as the specification words it, fails on an [int64] column whose
    sum leaves the range of a 64-bit integer: the matched rainfall adds up
    to 2^63, which is at least 200, and the class is Low, because the sum
    that the program tests has wrapped around to -2^63. *)
Lemma classify_wrapped_sum :
  rainfall_total (matched_records flood_climate_raised "Kaduna" "July")
  = 9223372036854775808
  /\ 200 <= rainfall_total (matched_records flood_climate_raised "Kaduna" "July")
  /\ rainfall_sum flood_climate_raised "Kaduna" "July" calendar_months
     = Return (-9223372036854775808)
  /\ climate_class_from_rainfall flood_climate_raised "Kaduna" "July"
       calendar_months
     = Return "Low".
Proof. repeat split. discriminate. Qed.

(** C2, amended. For a planting month of the calendar the thresholds are
    applied to the sum as pandas computes it.  On an [int64] column that
    is the exact sum of the matched rainfall wrapped into the 64-bit
    range, hence the exact sum itself whenever it fits: Low below 100,
    Medium from 100 up to but not including 200, High from 200 on.  On a
    [float64] column it is the rounded float sum, tested in the same way.
    With no matched record the sum is 0 and the class is Low on either
    column, and nothing is raised. *)
Theorem classify_thresholds `{Text} (df : list (Climate.row Z))
    (dff : list (Climate.row float)) (block_sum : list float -> float)
    (state m : string) :
  In m calendar_months ->
  let total := rainfall_total (matched_records df state m) in
  let class := climate_class_from_rainfall df state m calendar_months in
  let fsum := @column_sum float (float64 block_sum)
                (map Climate.avg_rainfall_mm (matched_records dff state m)) in
  let fclass := @climate_class_from_rainfall _ float (float64 block_sum)
                  dff state m calendar_months in
  rainfall_sum df state m calendar_months = Return (wrap64 total)
  /\ (in_int64 total -> wrap64 total = total)
  /\ (wrap64 total < 100 -> class = Return "Low")
  /\ (100 <= wrap64 total < 200 -> class = Return "Medium")
  /\ (200 <= wrap64 total -> class = Return "High")
  /\ (matched_records df state m = [] -> wrap64 total = 0 /\ class = Return "Low")
  /\ (PrimFloat.ltb fsum 100 = true -> fclass = Return "Low")
  /\ (PrimFloat.ltb fsum 100 = false -> PrimFloat.ltb fsum 200 = true ->
      fclass = Return "Medium")
  /\ (PrimFloat.ltb fsum 100 = false -> PrimFloat.ltb fsum 200 = false ->
      fclass = Return "High")
  /\ (matched_records dff state m = [] -> fclass = Return "Low").
Proof.
  intros M total class fsum fclass. subst class fclass.
  rewrite (classify_int64 df state m M). fold total.
  rewrite (@classify_matched _ float (float64 block_sum) dff state m M).
  fold fsum.
  split; [now apply rainfall_sum_int64|].
  split; [apply wrap64_in_range|].
  destruct (class_of_sum_cases (wrap64 total)) as [[B ->] | [[B ->] | [B ->]]].
  all: split; [intros; try reflexivity; lia|].
  all: split; [intros; try reflexivity; lia|].
  all: split; [intros; try reflexivity; lia|].
  all: split;
    [intros E; subst total; rewrite E in *; vm_compute in B;
     try (split; reflexivity);
     exfalso; first [now destruct B as [B _]; apply B | now apply B]|].
  all: unfold class_of; cbn [lt_100 lt_200 float64].
  all: repeat split.
  all: try (intros E; rewrite E; reflexivity).
  all: try (intros E1 E2; rewrite E1, E2; reflexivity).
  all: intros E; subst fsum; rewrite E; reflexivity.
Qed.

Lemma classify_thresholds_witness :
  climate_class_from_rainfall kaduna_climate "Kaduna" "July" calendar_months
  = Return "Medium".
Proof.
  assert (M : In "July" calendar_months) by (simpl; tauto).
  destruct (classify_thresholds kaduna_climate decimal_climate add_in_order
              "Kaduna" "July" M) as (_ & _ & _ & K & _).
  apply K. vm_compute. split; [intros E; discriminate E | reflexivity].
Defined.

(** C3, as the specification words it, fails on a [float64] column: the
    same three rows give the class Low in one order (their sum rounds to
    99.99999999999999) and Medium in another (it rounds to 100.0). *)
Lemma classify_row_order_float :
  Permutation decimal_climate decimal_climate_reordered
  /\ @climate_class_from_rainfall _ float (float64 add_in_order)
       decimal_climate "Kaduna" "July" calendar_months
     = Return "Low"
  /\ @climate_class_from_rainfall _ float (float64 add_in_order)
       decimal_climate_reordered "Kaduna" "July" calendar_months
     = Return "Medium".
Proof.
  split; [|split; reflexivity].
  unfold decimal_climate, decimal_climate_reordered.
  apply (Permutation_cons_append
           [ Climate.mk "Kaduna" "August" 33.3%float;
             Climate.mk "Kaduna" "September" 33.3%float ]).
Qed.

(** C3, amended. For each of the twelve month names the program's window
    is the planting month and its two calendar successors, wrapping after
    December; the rainfall is summed over exactly the rows of the region
    whose month is in that window, taken in table order.  On an [int64]
    column a further matching row, duplicate or not, adds its rainfall
    (modulo 2^64), and permuting the rows of the table changes neither
    the sum nor the class. *)
Theorem classify_window `{Text} {T : Type} `{Dtype T}
    (df : list (Climate.row T)) (dfz : list (Climate.row Z))
    (state m : string) :
  In m calendar_months ->
  (exists i, index calendar_months m = Return i
             /\ window_months calendar_months i
                = Return [m; next_month m; next_month (next_month m)])
  /\ planting_window "November" = ["November"; "December"; "January"]
  /\ rainfall_sum df state m calendar_months
     = Return (column_sum
                 (map Climate.avg_rainfall_mm (matched_records df state m)))
  /\ (forall r, In r (matched_records df state m) <->
                In r df /\ Climate.state r = state
                /\ In (Climate.month r) (planting_window m))
  /\ (forall r, Climate.state r = state ->
                In (Climate.month r) (planting_window m) ->
                rainfall_sum (r :: dfz) state m calendar_months
                = Return (wrap64 (Climate.avg_rainfall_mm r
                                  + rainfall_total (matched_records dfz state m))))
  /\ (forall dfz', Permutation dfz dfz' ->
        rainfall_sum dfz' state m calendar_months
        = rainfall_sum dfz state m calendar_months
        /\ climate_class_from_rainfall dfz' state m calendar_months
           = climate_class_from_rainfall dfz state m calendar_months).
Proof.
  intros M.
  split; [exact (window_of_month m M)|].
  split; [reflexivity|].
  split; [now apply rainfall_sum_matched|].
  split; [intros r; apply matched_records_In|].
  split.
  - intros r Es Ew. rewrite rainfall_sum_int64 by assumption.
    assert (X : existsb (String.eqb (Climate.month r)) (planting_window m) = true).
    { apply existsb_exists. exists (Climate.month r).
      split; [assumption | apply String.eqb_refl]. }
    assert (E : matched_records (r :: dfz) state m
                = r :: matched_records dfz state m).
    { unfold matched_records. cbn [filter].
      rewrite X, (proj2 (String.eqb_eq _ _) Es). reflexivity. }
    rewrite E. reflexivity.
  - intros dfz' P.
    rewrite !classify_int64, !rainfall_sum_int64 by assumption.
    rewrite (rainfall_total_perm _ _ (matched_records_perm dfz dfz' state m P)).
    split; reflexivity.
Qed.

Lemma classify_window_witness :
  rainfall_sum
    [ Climate.mk "Kano" "January" 7; Climate.mk "Kano" "March" 90;
      Climate.mk "Kano" "December" 5; Climate.mk "Kano" "November" 30;
      Climate.mk "Zaria" "November" 300; Climate.mk "Kano" "November" 30 ]
    "Kano" "November" calendar_months
  = Return 72.
Proof.
  assert (M : In "November" calendar_months) by (simpl; tauto).
  destruct (classify_window
              [ Climate.mk "Kano" "January" 7; Climate.mk "Kano" "March" 90;
                Climate.mk "Kano" "December" 5; Climate.mk "Kano" "November" 30;
                Climate.mk "Zaria" "November" 300; Climate.mk "Kano" "November" 30 ]
              kaduna_climate "Kano" "November" M) as (_ & _ & K & _).
  rewrite K. reflexivity.
Defined.




(* ================================================================== *)
(** ** Sorting by yield *)

Section InsertionSorts.

Lemma insert_first_perm x l : Permutation (x :: l) (insert_first x l).
Proof.
  induction l as [|y l IH]; simpl; [reflexivity|].
  destruct (_ <=? _); [reflexivity|].
  rewrite perm_swap. now constructor.
Qed.

Lemma insert_last_perm x l : Permutation (x :: l) (insert_last x l).
Proof.
  induction l as [|y l IH]; simpl; [reflexivity|].
  destruct (_ <? _); [reflexivity|].
  rewrite perm_swap. now constructor.
Qed.

Lemma insert_first_hd x y l :
  HdRel yield_ge y l -> yield_ge y x -> HdRel yield_ge y (insert_first x l).
Proof.
  intros Hl Hx. destruct l as [|z l]; simpl; [now constructor|].
  destruct (_ <=? _); constructor; [assumption | now inversion Hl].
Qed.

Lemma insert_last_hd x y l :
  HdRel yield_ge y l -> yield_ge y x -> HdRel yield_ge y (insert_last x l).
Proof.
  intros Hl Hx. destruct l as [|z l]; simpl; [now constructor|].
  destruct (_ <? _); constructor; [assumption | now inversion Hl].
Qed.

Lemma insert_first_sorted x l :
  Sorted yield_ge l -> Sorted yield_ge (insert_first x l).
Proof.
  induction 1 as [|y l Sl IH Hd]; simpl; [repeat constructor|].
  destruct (Z.leb_spec (Maize.yield_potential y) (Maize.yield_potential x)).
  - repeat constructor; assumption.
  - constructor; [assumption|].
    apply insert_first_hd; [assumption | unfold yield_ge; lia].
Qed.

Lemma insert_last_sorted x l :
  Sorted yield_ge l -> Sorted yield_ge (insert_last x l).
Proof.
  induction 1 as [|y l Sl IH Hd]; simpl; [repeat constructor|].
  destruct (Z.ltb_spec (Maize.yield_potential y) (Maize.yield_potential x)).
  - repeat constructor; try assumption. unfold yield_ge; lia.
  - constructor; [assumption|].
    apply insert_last_hd; [assumption | unfold yield_ge; lia].
Qed.

Lemma stable_sort_perm df : Permutation df (stable_sort df).
Proof.
  induction df as [|x df IH]; simpl; [constructor|].
  rewrite <- insert_first_perm. now constructor.
Qed.

Lemma stable_sort_sorted df : Sorted yield_ge (stable_sort df).
Proof.
  induction df as [|x df IH]; simpl; [constructor|].
  now apply insert_first_sorted.
Qed.

Lemma fold_insert_last_perm df sorted :
  Permutation (df ++ sorted)
    (fold_left (fun sorted x => insert_last x sorted) df sorted).
Proof.
  revert sorted. induction df as [|x df IH]; intros sorted; simpl; [reflexivity|].
  rewrite <- IH, <- insert_last_perm. apply Permutation_middle.
Qed.

Lemma fold_insert_last_sorted df sorted :
  Sorted yield_ge sorted ->
  Sorted yield_ge (fold_left (fun sorted x => insert_last x sorted) df sorted).
Proof.
  revert sorted. induction df as [|x df IH]; intros sorted S; simpl; [exact S|].
  apply IH. now apply insert_last_sorted.
Qed.

Lemma stable_sort_left_perm df : Permutation df (stable_sort_left df).
Proof.
  unfold stable_sort_left. rewrite <- fold_insert_last_perm.
  now rewrite app_nil_r.
Qed.

Lemma stable_sort_left_sorted df : Sorted yield_ge (stable_sort_left df).
Proof. apply fold_insert_last_sorted. constructor. Qed.

End InsertionSorts.

(** The two sorts as sort kinds. *)
Definition stable_kind : SortValues :=
  {| sort_values := stable_sort;
     sort_values_perm := stable_sort_perm;
     sort_values_sorted := stable_sort_sorted |}.

Definition stable_kind_left : SortValues :=
  {| sort_values := stable_sort_left;
     sort_values_perm := stable_sort_left_perm;
     sort_values_sorted := stable_sort_left_sorted |}.

(* ================================================================== *)
(** ** The variety selector *)

Section Lists.

Context {A : Type}.


Lemma incl_firstn (n : nat) (l : list A) : incl (firstn n l) l.
Proof.
  revert l. induction n as [|n IH]; intros [|a l]; simpl; try easy.
  intros x [->|K]; [now left | right; now apply IH].
Qed.


Lemma filter_none (f : A -> bool) (l : list A) :
  (forall x, In x l -> f x = false) -> filter f l = [].
Proof.
  induction l as [|a l IH]; simpl; intros F; [reflexivity|].
  rewrite (F a (or_introl eq_refl)). apply IH. intros x Hx. apply F. now right.
Qed.

Lemma filter_perm (f : A -> bool) (l1 l2 : list A) :
  Permutation l1 l2 -> Permutation (filter f l1) (filter f l2).
Proof.
  induction 1; simpl.
  - constructor.
  - destruct (f x); [now constructor | assumption].
  - destruct (f x), (f y); try reflexivity. apply perm_swap.
  - etransitivity; eassumption.
Qed.

Lemma StronglySorted_app_rel (R : A -> A -> Prop) (l1 l2 : list A) :
  StronglySorted R (l1 ++ l2) ->
  forall a b, In a l1 -> In b l2 -> R a b.
Proof.
  induction l1 as [|x l1 IH]; simpl; intros S a b Ha Hb; [contradiction|].
  inversion S as [|? ? S' F]; subst. destruct Ha as [<- | Ha].
  - rewrite Forall_forall in F. apply F, in_or_app. now right.
  - now apply IH.
Qed.

End Lists.

Lemma yield_ge_trans : Relations_1.Transitive yield_ge.
Proof. intros a b c. unfold yield_ge. lia. Qed.

Section Selector.

Context `{Text} `{SortValues} {T : Type}.
Variable self : MaizeAdvisorySystem T.

Lemma tolerance_filter_incl col risk df : incl (tolerance_filter col risk df) df.
Proof.
  unfold tolerance_filter.
  destruct (String.eqb risk "High"); [apply incl_filter|].
  destruct (String.eqb risk "Medium"); [apply incl_filter | apply incl_refl].
Qed.

Lemma tolerance_filter_mono col risk df df' :
  incl df df' -> incl (tolerance_filter col risk df) (tolerance_filter col risk df').
Proof.
  intros I. unfold tolerance_filter.
  destruct (String.eqb risk "High");
    [|destruct (String.eqb risk "Medium"); [|assumption]];
    intros r; rewrite !filter_In; intros [Hr Hf]; split; auto.
Qed.

Lemma tolerance_filter_High_Medium col df :
  incl (tolerance_filter col "High" df) (tolerance_filter col "Medium" df).
Proof.
  unfold tolerance_filter. simpl String.eqb. cbv iota.
  intros r. rewrite !filter_In. intros [Hr Hf]. split; [assumption|].
  apply String.eqb_eq in Hf. rewrite Hf. reflexivity.
Qed.


Lemma tolerance_filter_In col risk df r :
  In r (tolerance_filter col risk df) <-> In r df /\ tolerates risk (col r).
Proof.
  unfold tolerance_filter, tolerates.
  destruct (String.eqb_spec risk "High") as [->|NH].
  - rewrite filter_In, String.eqb_eq. split.
    + intros [I E]. repeat split; trivial. intros K; discriminate K.
    + intros [I [E _]]. auto.
  - destruct (String.eqb_spec risk "Medium") as [->|NM].
    + rewrite filter_In, isin_In. simpl. split.
      * intros [I E]. split; [exact I|]. split; [intros K; discriminate K|].
        intros _. destruct E as [E | [E | []]]; auto.
      * intros [I [_ E]]. split; [exact I|].
        destruct (E eq_refl) as [K|K]; auto.
    + split; [|tauto]. intros I. repeat split; trivial; intros K; contradiction.
Qed.

Lemma tolerance_filter_perm col risk l1 l2 :
  Permutation l1 l2 ->
  Permutation (tolerance_filter col risk l1) (tolerance_filter col risk l2).
Proof.
  intros P. unfold tolerance_filter.
  destruct (String.eqb risk "High"); [now apply filter_perm|].
  destruct (String.eqb risk "Medium"); [now apply filter_perm | assumption].
Qed.

Lemma suitable_varieties_In zone d s r :
  In r (suitable_varieties self zone d s) <->
  In r (maize_df self)
  /\ Maize.adaptation_zone r = zone
  /\ tolerates d (Maize.drought_tolerance r)
  /\ tolerates s (Maize.low_n_tolerance r).
Proof.
  unfold suitable_varieties, zone_filter.
  rewrite !tolerance_filter_In, filter_In, String.eqb_eq. tauto.
Qed.

Lemma suitable_varieties_incl zone d s :
  incl (suitable_varieties self zone d s) (maize_df self).
Proof.
  unfold suitable_varieties, zone_filter.
  eapply incl_tran; [apply tolerance_filter_incl|].
  eapply incl_tran; [apply tolerance_filter_incl | apply incl_filter].
Qed.

Lemma recommend_varieties_incl zone d s :
  incl (recommend_varieties self zone d s) (suitable_varieties self zone d s).
Proof.
  unfold recommend_varieties.
  eapply incl_tran; [apply incl_firstn|].
  intros r Hr. eapply Permutation_in; [|exact Hr].
  symmetry. apply sort_values_perm.
Qed.

Lemma recommend_varieties_length zone d s :
  (length (recommend_varieties self zone d s) <= 3)%nat.
Proof. unfold recommend_varieties. apply firstn_le_length. Qed.





End Selector.

(** C7, as the specification words it, fails on the returned rows: the
    only variety returned for a High drought risk is ranked fourth for a
    Medium one and falls outside the first three. *)
Lemma selection_not_narrowing :
  map Maize.variety_name
      (@recommend_varieties _ stable_kind _ (catalog_only crowded_catalog)
         "Sahel" "High" "Low") = ["H1"]
  /\ map Maize.variety_name
       (@recommend_varieties _ stable_kind _ (catalog_only crowded_catalog)
          "Sahel" "Medium" "Low") = ["M1"; "M2"; "M3"]
  /\ ~ incl (@recommend_varieties _ stable_kind _ (catalog_only crowded_catalog)
               "Sahel" "High" "Low")
            (@recommend_varieties _ stable_kind _ (catalog_only crowded_catalog)
               "Sahel" "Medium" "Low").
Proof.
  split; [reflexivity|]. split; [reflexivity|].
  intros I.
  specialize (I (Maize.mk "H1" "Sahel" "High" "High" 3 "Late" "Yellow")).
  vm_compute in I.
  destruct I as [E | [E | [E | []]]]; [| discriminate E ..].
  left. reflexivity.
Qed.

(** C7, amended. The rows that pass the zone and tolerance filters for a
    High drought risk are among those that pass for a Medium one, and so
    is every row returned for High; the rows returned for High are among
    the rows returned for Medium whenever at most three rows pass the
    filters for Medium. *)
Theorem selection_narrowing `{Text} `{SortValues} {T : Type}
    (self : MaizeAdvisorySystem T) (zone soil_risk : string) :
  incl (suitable_varieties self zone "High" soil_risk)
       (suitable_varieties self zone "Medium" soil_risk)
  /\ incl (recommend_varieties self zone "High" soil_risk)
          (suitable_varieties self zone "Medium" soil_risk)
  /\ ((length (suitable_varieties self zone "Medium" soil_risk) <= 3)%nat ->
      incl (recommend_varieties self zone "High" soil_risk)
           (recommend_varieties self zone "Medium" soil_risk)).
Proof.
  assert (S : incl (suitable_varieties self zone "High" soil_risk)
                   (suitable_varieties self zone "Medium" soil_risk)).
  { unfold suitable_varieties. apply tolerance_filter_mono.
    apply tolerance_filter_High_Medium. }
  assert (R : incl (recommend_varieties self zone "High" soil_risk)
                   (suitable_varieties self zone "Medium" soil_risk)).
  { eapply incl_tran; [apply recommend_varieties_incl | exact S]. }
  repeat split; try assumption.
  intros L r Hr. apply R in Hr.
  unfold recommend_varieties. rewrite firstn_all2.
  - eapply Permutation_in; [apply sort_values_perm | exact Hr].
  - now rewrite <- (Permutation_length (sort_values_perm _)).
Qed.

Lemma selection_narrowing_witness :
  incl (@recommend_varieties _ stable_kind _ (catalog_only tied_catalog)
          "Sudan Savanna" "High" "Low")
       (@recommend_varieties _ stable_kind _ (catalog_only tied_catalog)
          "Sudan Savanna" "Medium" "Low").
Proof.
  destruct (@selection_narrowing _ stable_kind _ (catalog_only tied_catalog)
              "Sudan Savanna" "Low") as (_ & _ & N).
  apply N. vm_compute. repeat constructor.
Defined.



(* ================================================================== *)
(** ** Which components can raise *)

Section Raises.

Context `{Text} {T : Type} `{Dtype T}.

Lemma index_from_raises x l i e :
  index_from x l i = Raise e -> e = ValueError (repr x ++ " is not in list").
Proof.
  revert i. induction l as [|y l IH]; simpl; intros i E.
  - now injection E as <-.
  - destruct (String.eqb y x); [discriminate | eauto].
Qed.

Lemma window_months_raises mo i e :
  window_months mo i = Raise e -> exists msg, e = IndexError msg.
Proof.
  unfold window_months, comprehension, getitem.
  repeat (destruct (nth_error mo _); simpl; [|intros E; injection E as <-; eauto]).
  discriminate.
Qed.

Lemma classify_raises (df : list (Climate.row T)) state m mo e :
  climate_class_from_rainfall df state m mo = Raise e ->
  e = ValueError (repr m ++ " is not in list") \/ exists msg, e = IndexError msg.
Proof.
  unfold climate_class_from_rainfall, rainfall_sum, index.
  destruct (index_from m mo 0) as [i|e0] eqn:Ei; simpl.
  - destruct (window_months mo i) as [w|e1] eqn:Ew; simpl.
    + destruct (lt_100 _); [discriminate|]. destruct (lt_200 _); discriminate.
    + intros E; injection E as <-. right. eapply window_months_raises, Ew.
  - intros E; injection E as <-. left. eapply index_from_raises, Ei.
Qed.

Lemma classify_returns (df : list (Climate.row T)) state m mo class :
  climate_class_from_rainfall df state m mo = Return class ->
  In class ["Low"; "Medium"; "High"].
Proof.
  unfold climate_class_from_rainfall.
  destruct (rainfall_sum df state m mo) as [t|]; [|discriminate]. cbn [bind].
  destruct (lt_100 _); [|destruct (lt_200 _)]; intros E; injection E as <-;
    simpl; tauto.
Qed.

End Raises.

(** C9, as the specification words it, fails for the classifier: a
    planting month outside the calendar makes [list.index] raise. *)
Lemma classify_unknown_month_raises :
  climate_class_from_rainfall kaduna_climate "Kaduna" "Julius"
    (months_order (init [] [] kaduna_climate []))
  = Raise (ValueError "'Julius' is not in list").
Proof. reflexivity. Qed.

(** C9, amended. The classifier returns one of the three classes for each
    of the twelve month names and raises a [ValueError] for any other
    planting month.  The risk mappers, the recommendation generators and
    the variety selector return a value on every input: one of the listed
    results for the mappers and generators, at most three catalog rows for
    the selector. *)
Theorem components_total `{Text} `{SortValues} {T : Type} `{Dtype T}
    (self : MaizeAdvisorySystem T)
    (df : list (Climate.row T)) (state m c s d zone : string) :
  (In m calendar_months ->
   exists class, climate_class_from_rainfall df state m calendar_months = Return class
                 /\ In class ["Low"; "Medium"; "High"])
  /\ (~ In m calendar_months ->
      climate_class_from_rainfall df state m calendar_months
      = Raise (ValueError (repr m ++ " is not in list")))
  /\ In (drought_risk_from_climate c)
        [ ("High", "Frequent irrigation required");
          ("Medium", "Moderate irrigation recommended");
          ("Low", "Irrigation usually not required");
          ("Unknown", "Unknown") ]
  /\ In (soil_fertility_risk s) ["High"; "Medium"; "Low"; "Unknown"]
  /\ In (pest_disease_risk d s) ["High"; "Medium"; "Low"]
  /\ In (recommend_fertilizer s)
        [ recommend_fertilizer "low"; recommend_fertilizer "medium";
          recommend_fertilizer "high"; Fertilizer.mk 0 0 0 "No recommendation" ]
  /\ In (pest_disease_recommendation d)
        [ "Intensive monitoring and timely pesticide application recommended.";
          "Regular monitoring with targeted interventions if needed.";
          "Routine monitoring sufficient." ]
  /\ incl (recommend_varieties self zone d s) (maize_df self)
  /\ (length (recommend_varieties self zone d s) <= 3)%nat.
Proof.
  assert (W : forall t, plain t = true -> ascii_lower t = t -> lower t = t).
  { intros t P L. apply lower_word_iff; trivial. apply case_variant_refl. }
  split; [|split; [apply classify_missing|]].
  - intros M. rewrite (classify_matched df state m M). eexists.
    split; [reflexivity | apply class_of_range].
  - repeat split.
    + unfold drought_risk_from_climate.
      repeat (destruct (String.eqb (lower c) _); [simpl; tauto|]). simpl; tauto.
    + unfold soil_fertility_risk.
      repeat (destruct (String.eqb (lower s) _); [simpl; tauto|]). simpl; tauto.
    + unfold pest_disease_risk.
      repeat (destruct (_ || _); [simpl; tauto|]). simpl; tauto.
    + unfold recommend_fertilizer.
      rewrite (W "low"), (W "medium"), (W "high") by reflexivity.
      repeat (destruct (String.eqb (lower s) _); [simpl; tauto|]). simpl; tauto.
    + unfold pest_disease_recommendation.
      repeat (destruct (String.eqb (lower d) _); [simpl; tauto|]). simpl; tauto.
    + eapply incl_tran; [apply recommend_varieties_incl | apply suitable_varieties_incl].
    + apply recommend_varieties_length.
Qed.

Lemma components_total_witness :
  exists class,
    climate_class_from_rainfall kaduna_climate "Kaduna" "December" calendar_months
    = Return class
    /\ In class ["Low"; "Medium"; "High"].
Proof.
  destruct (@components_total _ stable_kind _ _ (catalog_only []) kaduna_climate
              "Kaduna" "December" "Low" "Low" "Low" "Sahel") as (K & _).
  apply K. simpl. tauto.
Defined.

(* ================================================================== *)
(** ** The orchestrator's soil-level check *)

Section SoilLevelCheck.

Context `{Text} `{SortValues} {T : Type} `{Dtype T}.
Variables (self : MaizeAdvisorySystem T) (state : string).

Lemma available_listed (soil_level : string) :
  isin (lower soil_level) (available_levels self state) = true
  <-> listed_level self state soil_level.
Proof.
  rewrite isin_In. unfold available_levels, listed_level.
  rewrite in_map_iff. split.
  - intros (r & E & Hr). apply filter_In in Hr as [Hr Hs].
    apply String.eqb_eq in Hs. exists r. repeat split; trivial.
  - intros (r & Hr & Hs & V). exists r. split; [exact V|].
    apply filter_In. split; [assumption | now apply String.eqb_eq].
Qed.

Lemma listed_level_dec (soil_level : string) :
  listed_level self state soil_level \/ ~ listed_level self state soil_level.
Proof.
  destruct (isin (lower soil_level) (available_levels self state)) eqn:E.
  - left. now apply available_listed.
  - right. intros L. apply available_listed in L. congruence.
Qed.

Lemma validate_soil_level_spec (soil_level : string) :
  (listed_level self state soil_level ->
   validate_soil_level self state soil_level = Return tt)
  /\ (~ listed_level self state soil_level ->
      validate_soil_level self state soil_level
      = Raise (ValueError (soil_level_message soil_level state
                             (available_levels self state)))).
Proof.
  unfold validate_soil_level.
  destruct (isin (lower soil_level) (available_levels self state)) eqn:E; simpl.
  - apply available_listed in E. split; [reflexivity | contradiction].
  - split; [|reflexivity]. intros L. apply available_listed in L. congruence.
Qed.

(** The text of the soil-level error begins with an [S]; the text of
    the error of [list.index] begins with a quote. *)
Lemma index_error_not_InvalidInput (m soil_level : string) :
  ~ InvalidInput self state soil_level
      (ValueError (repr m ++ " is not in list")).
Proof.
  unfold InvalidInput. intros E. injection E as E.
  destruct (repr_quoted m) as (rest & [R | R]); rewrite R in E;
    simpl in E; injection E as E _; discriminate E.
Qed.

Lemma generate_report_raises (planting_month soil_level : string) (e : exn) :
  listed_level self state soil_level ->
  generate_report self state planting_month soil_level = Raise e ->
  ~ InvalidInput self state soil_level e.
Proof.
  intros L. unfold generate_report.
  rewrite (proj1 (validate_soil_level_spec soil_level) L). simpl bind.
  unfold agro_zone_of. destruct (filter _ (state_df self)) as [|z zs]; simpl bind.
  - intros E; injection E as <-. discriminate.
  - destruct (climate_class_from_rainfall _ _ _ _) as [c|e0] eqn:Ec; simpl bind.
    + destruct (drought_risk_from_climate c). discriminate.
    + intros E; injection E as <-.
      destruct (classify_raises _ _ _ _ _ Ec) as [-> | [msg ->]].
      * apply index_error_not_InvalidInput.
      * discriminate.
Qed.

End SoilLevelCheck.

(** C1. [generate_report] raises the soil-level error exactly when no
    row of the soil table for the region carries the supplied level,
    letter case aside (the two levels are compared after [lower]); the
    text of the error names the level as supplied and lists the levels
    available for the region; every level that the table lists for the
    region passes the check, and so does every case variant of it. *)
Theorem soil_level_check `{Text} `{SortValues} {T : Type} `{Dtype T}
    (self : MaizeAdvisorySystem T)
    (state planting_month soil_level : string) :
  ((exists e, generate_report self state planting_month soil_level = Raise e
              /\ InvalidInput self state soil_level e)
   <-> ~ listed_level self state soil_level)
  /\ (~ listed_level self state soil_level ->
      generate_report self state planting_month soil_level
      = Raise (ValueError
                 ("Soil fertility level '" ++ soil_level
                  ++ "' not valid for state '" ++ state
                  ++ "'. Available levels: "
                  ++ repr_list (map (fun r => lower (Soil.soil_level r))
                                  (filter (fun r => String.eqb (Soil.state r) state)
                                          (soil_df self))))))
  /\ (forall r, In r (soil_df self) -> Soil.state r = state ->
        validate_soil_level self state (Soil.soil_level r) = Return tt
        /\ forall e,
             generate_report self state planting_month (Soil.soil_level r) = Raise e ->
             ~ InvalidInput self state (Soil.soil_level r) e)
  /\ (forall r level, In r (soil_df self) -> Soil.state r = state ->
        case_variant (Soil.soil_level r) level ->
        validate_soil_level self state level = Return tt).
Proof.
  assert (R : ~ listed_level self state soil_level ->
              generate_report self state planting_month soil_level
              = Raise (ValueError (soil_level_message soil_level state
                                     (available_levels self state)))).
  { intros N. unfold generate_report.
    now rewrite (proj2 (validate_soil_level_spec self state soil_level) N). }
  split; [split|split; [|split]].
  - intros (e & E & I) L. exact (generate_report_raises self state _ _ e L E I).
  - intros N. eexists. split; [apply R, N | reflexivity].
  - exact R.
  - intros r Hr Hs.
    assert (L : listed_level self state (Soil.soil_level r)).
    { exists r. repeat split; trivial. }
    split.
    + now apply validate_soil_level_spec.
    + intros e E. exact (generate_report_raises self state _ _ e L E).
  - intros r level Hr Hs V. apply validate_soil_level_spec.
    exists r. repeat split; trivial. now apply lower_case_variant.
Qed.

Lemma soil_level_check_witness :
  @generate_report _ stable_kind _ _ kaduna_system "Kaduna" "July" "Very High"
  = Raise (ValueError
             "Soil fertility level 'Very High' not valid for state 'Kaduna'. Available levels: ['low', 'medium', 'high']").
Proof.
  destruct (@soil_level_check _ stable_kind _ _ kaduna_system
              "Kaduna" "July" "Very High") as (_ & E & _).
  rewrite E; [reflexivity|].
  intros (r & Hr & _ & V).
  simpl in Hr. destruct Hr as [<- | [<- | [<- | []]]]; discriminate V.
Defined.

(** With a listed soil level the report can still fail: a planting month
    outside the calendar raises the [ValueError] of [list.index], and a
    region without a row in the state table raises an [IndexError]. *)
Remark generate_report_other_errors :
  @generate_report _ stable_kind _ _ kaduna_system "Kaduna" "Julius" "high"
  = Raise (ValueError "'Julius' is not in list")
  /\ @generate_report _ stable_kind _ _
       (init [] [] kaduna_climate [Soil.mk "Kano" "Low"]) "Kano" "July" "LOW"
     = Raise (IndexError "single positional indexer is out-of-bounds").
Proof. split; reflexivity. Qed.

(** The scenario of the test suite: Kaduna, July, low fertility. *)
Example generate_report_kaduna :
  exists rep,
    @generate_report _ stable_kind _ _ kaduna_system "Kaduna" "July" "Low"
    = Return rep
    /\ report_climate_class rep = "Medium"
    /\ report_drought_risk rep = "Medium"
    /\ report_soil_risk rep = "High"
    /\ report_pest_risk rep = "High"
    /\ Fertilizer.N (report_fertilizer rep) = 120
    /\ map Maize.variety_name (report_varieties rep) = ["V3"; "V1"].
Proof. eexists. split; [reflexivity|]. repeat split. Qed.


(* ================================================================== *)
(** * Further properties of the program *)

Section Words.

Context `{Text}.

(** The lower-case form of an ASCII word without k in its lower case. *)
Lemma lower_literal (s t : string) :
  ascii_lower s = t -> plain t = true -> lower s = t.
Proof.
  intros E P. assert (A : is_ascii s = true).
  { unfold plain in P. apply andb_true_iff in P as [P _].
    now rewrite <- E, is_ascii_ascii_lower in P. }
  now rewrite (lower_ascii_text s A).
Qed.

Lemma lower_High : lower "High" = "high".
Proof. now apply lower_literal. Qed.

Lemma lower_Medium : lower "Medium" = "medium".
Proof. now apply lower_literal. Qed.

Lemma lower_Low : lower "Low" = "low".
Proof. now apply lower_literal. Qed.

Lemma lower_Unknown : lower "Unknown" = "unknown".
Proof.
  rewrite (lower_ascii_text "Unknown" eq_refl). reflexivity.
Qed.

Lemma drought_risk_of_class :
  drought_risk_from_climate "Low" = ("High", "Frequent irrigation required")
  /\ drought_risk_from_climate "Medium"
     = ("Medium", "Moderate irrigation recommended")
  /\ drought_risk_from_climate "High"
     = ("Low", "Irrigation usually not required").
Proof.
  unfold drought_risk_from_climate.
  rewrite lower_Low, lower_Medium, lower_High. repeat split.
Qed.

Lemma pest_advice_of_level :
  pest_disease_recommendation "High"
  = "Intensive monitoring and timely pesticide application recommended."
  /\ pest_disease_recommendation "Medium"
     = "Regular monitoring with targeted interventions if needed."
  /\ pest_disease_recommendation "Low" = "Routine monitoring sufficient."
  /\ pest_disease_recommendation "Unknown" = "Routine monitoring sufficient.".
Proof.
  unfold pest_disease_recommendation.
  rewrite lower_Low, lower_Medium, lower_High, lower_Unknown. repeat split.
Qed.

End Words.

(* ================================================================== *)
(** ** Risk mappers, recommendation generators and formatting *)

(** X1. [pest_disease_risk] does not depend on the order of its two
    arguments, combining three risks gives the same result however they
    are grouped, and combining a result with itself gives it back. *)
Theorem pest_disease_risk_algebra (a b c : string) :
  pest_disease_risk a b = pest_disease_risk b a
  /\ pest_disease_risk (pest_disease_risk a b) c
     = pest_disease_risk a (pest_disease_risk b c)
  /\ pest_disease_risk (pest_disease_risk a b) (pest_disease_risk a b)
     = pest_disease_risk a b.
Proof.
  unfold pest_disease_risk.
  destruct (String.eqb a "High"), (String.eqb a "Medium"),
    (String.eqb b "High"), (String.eqb b "Medium"),
    (String.eqb c "High"), (String.eqb c "Medium"); repeat split.
Qed.

(** X2. The fertilizer plan follows the soil-fertility risk of the same
    soil level: 120/60/60 exactly when the risk is High, 60/30/30 when it
    is Medium, 30/0/0 when it is Low, and the all-zero plan with the note
    "No recommendation" exactly when the risk is Unknown. *)
Theorem fertilizer_follows_soil_risk `{Text} (soil_level : string) :
  let plan := recommend_fertilizer soil_level in
  let amounts := (Fertilizer.N plan, Fertilizer.P2O5 plan, Fertilizer.K2O plan) in
  (soil_fertility_risk soil_level = "High" <-> amounts = (120, 60, 60))
  /\ (soil_fertility_risk soil_level = "Medium" <-> amounts = (60, 30, 30))
  /\ (soil_fertility_risk soil_level = "Low" <-> amounts = (30, 0, 0))
  /\ (soil_fertility_risk soil_level = "Unknown" <->
      plan = Fertilizer.mk 0 0 0 "No recommendation").
Proof.
  unfold soil_fertility_risk, recommend_fertilizer. cbv zeta.
  destruct (String.eqb (lower soil_level) "low");
    [|destruct (String.eqb (lower soil_level) "medium");
      [|destruct (String.eqb (lower soil_level) "high")]];
    simpl; repeat split; intros E; try reflexivity; discriminate E.
Qed.

(** X3. [recommend_fertilizer], [pest_disease_recommendation] and
    [color_risk] give the same result on every case variant of their
    input. *)
Theorem generators_case_insensitive `{Text} (s s' : string) :
  case_variant s s' ->
  recommend_fertilizer s = recommend_fertilizer s'
  /\ pest_disease_recommendation s = pest_disease_recommendation s'
  /\ color_risk s = color_risk s'.
Proof.
  intros V. apply lower_case_variant in V.
  unfold recommend_fertilizer, pest_disease_recommendation, color_risk.
  rewrite V. repeat split.
Qed.

Lemma generators_case_insensitive_witness :
  recommend_fertilizer "Medium" = recommend_fertilizer "MEDIUM"
  /\ pest_disease_recommendation "Medium" = pest_disease_recommendation "MEDIUM"
  /\ color_risk "Medium" = color_risk "MEDIUM".
Proof.
  apply generators_case_insensitive. apply ascii_lower_eq_iff. reflexivity.
Defined.

(** X4. [pest_disease_recommendation] has two tests only: every risk that
    is neither a case variant of "high" nor of "medium" gets the routine
    advice, so Low, Unknown and any other text are advised alike. *)
Theorem pest_advice_fallthrough `{Text} (risk_level : string) :
  ~ case_variant risk_level "high" ->
  ~ case_variant risk_level "medium" ->
  pest_disease_recommendation risk_level = "Routine monitoring sufficient."
  /\ pest_disease_recommendation risk_level = pest_disease_recommendation "Low"
  /\ pest_disease_recommendation risk_level = pest_disease_recommendation "Unknown".
Proof.
  intros NH NM.
  assert (R : pest_disease_recommendation risk_level
              = "Routine monitoring sufficient.").
  { unfold pest_disease_recommendation.
    destruct (String.eqb_spec (lower risk_level) "high") as [E|_].
    { exfalso. apply NH. now apply (lower_word_iff risk_level "high"). }
    destruct (String.eqb_spec (lower risk_level) "medium") as [E|_].
    { exfalso. apply NM. now apply (lower_word_iff risk_level "medium"). }
    reflexivity. }
  destruct pest_advice_of_level as (_ & _ & L & U).
  rewrite R, L, U. repeat split.
Qed.

Lemma pest_advice_fallthrough_witness :
  pest_disease_recommendation "severe" = "Routine monitoring sufficient."
  /\ pest_disease_recommendation "severe" = pest_disease_recommendation "Low"
  /\ pest_disease_recommendation "severe" = pest_disease_recommendation "Unknown".
Proof.
  apply pest_advice_fallthrough;
    intros V; apply ascii_lower_eq_iff in V; discriminate V.
Defined.

(** X5. On the pest risk that [pest_disease_risk] computes, the advice
    tells the three risks apart: intensive monitoring exactly for High,
    regular monitoring exactly for Medium, routine monitoring exactly for
    Low. *)
Theorem pest_advice_of_risk `{Text} (drought_risk soil_risk : string) :
  let risk := pest_disease_risk drought_risk soil_risk in
  let advice := pest_disease_recommendation risk in
  (advice = "Intensive monitoring and timely pesticide application recommended."
   <-> risk = "High")
  /\ (advice = "Regular monitoring with targeted interventions if needed."
      <-> risk = "Medium")
  /\ (advice = "Routine monitoring sufficient." <-> risk = "Low").
Proof.
  destruct pest_advice_of_level as (Ah & Am & Al & _).
  unfold pest_disease_risk. cbv zeta.
  destruct (_ || _); [|destruct (_ || _)]; rewrite ?Ah, ?Am, ?Al;
    repeat split; intros E; try reflexivity; discriminate E.
Qed.

(** X6. The text that [color_risk] produces shows a label among High,
    Medium, Low and Unknown; unless the label is Unknown it is the input
    up to letter case, and Unknown is the whole text exactly when the
    input is no case variant of the three others. *)
Theorem color_risk_label `{Text} (risk : string) :
  exists label,
    In label ["High"; "Medium"; "Low"; "Unknown"]
    /\ contains (color_risk risk) label = true
    /\ (label <> "Unknown" -> case_variant label risk)
    /\ (color_risk risk = "Unknown" <->
        ~ case_variant "high" risk /\ ~ case_variant "medium" risk
        /\ ~ case_variant "low" risk).
Proof.
  assert (V : forall t, plain t = true -> ascii_lower t = t ->
                        (lower risk = t <-> case_variant t risk)).
  { intros t P L. rewrite (lower_word_iff risk t P L).
    split; apply case_variant_sym. }
  assert (C : forall l t, ascii_lower l = ascii_lower t ->
                          case_variant t risk -> case_variant l risk).
  { intros l t E K. apply (case_variant_trans l t risk); [|exact K].
    now apply ascii_lower_eq_iff. }
  pose proof (V "high" eq_refl eq_refl) as Vh.
  pose proof (V "medium" eq_refl eq_refl) as Vm.
  pose proof (V "low" eq_refl eq_refl) as Vl.
  unfold color_risk.
  destruct (String.eqb_spec (lower risk) "high") as [Eh|Nh];
    [|destruct (String.eqb_spec (lower risk) "medium") as [Em|Nm];
      [|destruct (String.eqb_spec (lower risk) "low") as [El|Nl]]].
  - exists "High". split; [simpl; tauto|]. split; [reflexivity|].
    split; [intros _; apply (C "High" "high" eq_refl); tauto|].
    split; [intros E; discriminate E | intros (N & _); tauto].
  - exists "Medium". split; [simpl; tauto|]. split; [reflexivity|].
    split; [intros _; apply (C "Medium" "medium" eq_refl); tauto|].
    split; [intros E; discriminate E | intros (_ & N & _); tauto].
  - exists "Low". split; [simpl; tauto|]. split; [reflexivity|].
    split; [intros _; apply (C "Low" "low" eq_refl); tauto|].
    split; [intros E; discriminate E | intros (_ & _ & N); tauto].
  - exists "Unknown". split; [simpl; tauto|]. split; [reflexivity|].
    split; [intros N; now contradiction N|].
    split; [intros _; tauto | reflexivity].
Qed.

(* ================================================================== *)
(** ** The classifier: composition and bounds *)

(** X7. For a planting month of the calendar the drought assessment of
    the class is never Unknown.  With [s] the sum of the matched rainfall
    as the column computes it: [s < 100] gives a High drought risk with
    frequent irrigation, [s < 200] (and not [s < 100]) a Medium risk with
    moderate irrigation, and otherwise a Low risk without irrigation. *)
Theorem drought_risk_of_rainfall `{Text} {T : Type} `{Dtype T}
    (df : list (Climate.row T)) (state m : string) :
  In m calendar_months ->
  let s := column_sum (map Climate.avg_rainfall_mm (matched_records df state m)) in
  exists class,
    climate_class_from_rainfall df state m calendar_months = Return class
    /\ (lt_100 s = true ->
        drought_risk_from_climate class = ("High", "Frequent irrigation required"))
    /\ (lt_100 s = false -> lt_200 s = true ->
        drought_risk_from_climate class = ("Medium", "Moderate irrigation recommended"))
    /\ (lt_100 s = false -> lt_200 s = false ->
        drought_risk_from_climate class = ("Low", "Irrigation usually not required"))
    /\ In (fst (drought_risk_from_climate class)) ["High"; "Medium"; "Low"].
Proof.
  intros M s. rewrite (classify_matched df state m M). fold s.
  destruct drought_risk_of_class as (Dl & Dm & Dh).
  eexists. split; [reflexivity|]. unfold class_of.
  destruct (lt_100 s); [|destruct (lt_200 s)]; rewrite ?Dl, ?Dm, ?Dh;
    repeat split; intros; try reflexivity; try discriminate; simpl; tauto.
Qed.

Lemma drought_risk_of_rainfall_witness :
  exists class,
    climate_class_from_rainfall kaduna_climate "Kaduna" "September" calendar_months
    = Return class
    /\ drought_risk_from_climate class = ("High", "Frequent irrigation required").
Proof.
  assert (M : In "September" calendar_months) by (simpl; tauto).
  destruct (drought_risk_of_rainfall kaduna_climate "Kaduna" "September" M)
    as (class & E & L & _).
  exists class. split; [exact E|]. apply L. reflexivity.
Defined.

(** X8. A row of another region, or of a month outside the planting
    window, has no effect on the rainfall sum or on the class, wherever
    it stands in the table. *)
Theorem classify_ignores_other_rows `{Text} {T : Type} `{Dtype T}
    (df1 df2 : list (Climate.row T))
    (r : Climate.row T) (state m : string) :
  In m calendar_months ->
  Climate.state r <> state \/ ~ In (Climate.month r) (planting_window m) ->
  rainfall_sum (df1 ++ r :: df2) state m calendar_months
  = rainfall_sum (df1 ++ df2) state m calendar_months
  /\ climate_class_from_rainfall (df1 ++ r :: df2) state m calendar_months
     = climate_class_from_rainfall (df1 ++ df2) state m calendar_months.
Proof.
  intros M O.
  assert (E : matched_records (df1 ++ r :: df2) state m
              = matched_records (df1 ++ df2) state m).
  { unfold matched_records. rewrite !filter_app. cbn [filter].
    destruct (String.eqb_spec (Climate.state r) state) as [Es|Ns]; cbn [andb];
      [|reflexivity].
    destruct (existsb _ _) eqn:X; [|reflexivity].
    exfalso. destruct O as [O|O]; [contradiction|]. apply O.
    apply existsb_exists in X as (x & Hx & Ex).
    apply String.eqb_eq in Ex. now subst x. }
  rewrite !rainfall_sum_matched, !classify_matched by assumption.
  rewrite E. split; reflexivity.
Qed.

Lemma classify_ignores_other_rows_witness :
  rainfall_sum ([Climate.mk "Kaduna" "July" 40]
                  ++ Climate.mk "kaduna" "July" 500
                  :: [Climate.mk "Kaduna" "August" 50])
    "Kaduna" "July" calendar_months
  = rainfall_sum ([Climate.mk "Kaduna" "July" 40] ++ [Climate.mk "Kaduna" "August" 50])
      "Kaduna" "July" calendar_months.
Proof.
  apply classify_ignores_other_rows.
  - simpl. tauto.
  - left. simpl. discriminate.
Defined.

Section Index.

Context `{Text}.

Lemma index_from_bound x l k i :
  index_from x l k = Return i ->
  (k <= i < k + length l)%nat /\ nth_error l (i - k) = Some x.
Proof.
  revert k. induction l as [|y l IH]; simpl; intros k E; [discriminate|].
  destruct (String.eqb_spec y x) as [->|_].
  - injection E as <-. rewrite Nat.sub_diag. split; [lia | reflexivity].
  - apply IH in E as [B N]. split; [lia|].
    replace (i - k)%nat with (S (i - S k)) by lia. exact N.
Qed.

Lemma index_from_found x l k :
  In x l -> exists i, index_from x l k = Return i.
Proof.
  revert k. induction l as [|y l IH]; simpl; intros k K; [contradiction|].
  destruct (String.eqb_spec y x) as [_|N]; [eauto|].
  destruct K as [K|K]; [contradiction | apply IH, K].
Qed.

End Index.

Lemma getitem_in_range l i :
  (i < length l)%nat -> exists x, getitem l i = Return x.
Proof.
  intros B. unfold getitem. destruct (nth_error l i) eqn:E; [eauto|].
  apply nth_error_None in E. lia.
Qed.

(** X9. The classifier works with any list of twelve month names that
    holds the planting month: the window has three entries, the planting
    month first, and one of the three classes is returned. *)
Theorem classify_any_calendar `{Text} {T : Type} `{Dtype T}
    (df : list (Climate.row T)) (state m : string) (mo : list string) :
  length mo = 12%nat -> In m mo ->
  exists i a b class,
    index mo m = Return i
    /\ window_months mo i = Return [m; a; b]
    /\ climate_class_from_rainfall df state m mo = Return class
    /\ In class ["Low"; "Medium"; "High"].
Proof.
  intros L M. destruct (index_from_found m mo 0 M) as [i Ei].
  destruct (index_from_bound _ _ _ _ Ei) as [B N].
  rewrite Nat.sub_0_r in N.
  destruct (getitem_in_range mo ((i + 1) mod 12)) as [a Ea];
    [rewrite L; apply Nat.mod_upper_bound; discriminate|].
  destruct (getitem_in_range mo ((i + 2) mod 12)) as [b Eb];
    [rewrite L; apply Nat.mod_upper_bound; discriminate|].
  assert (W : window_months mo i = Return [m; a; b]).
  { unfold window_months. cbn [comprehension].
    rewrite Ea, Eb. rewrite Nat.add_0_r, Nat.mod_small by lia.
    unfold getitem. rewrite N. reflexivity. }
  assert (C : exists class,
             climate_class_from_rainfall df state m mo = Return class
             /\ In class ["Low"; "Medium"; "High"]).
  { unfold climate_class_from_rainfall, rainfall_sum, index.
    rewrite Ei. cbn [bind]. rewrite W. cbn [bind].
    destruct (lt_100 _); [|destruct (lt_200 _)]; eexists;
      (split; [reflexivity | simpl; tauto]). }
  destruct C as (class & C & I).
  exists i, a, b, class. repeat split; assumption.
Qed.

Lemma classify_any_calendar_witness :
  exists i a b class,
    index ["Q1a"; "Q1b"; "Q1c"; "Q2a"; "Q2b"; "Q2c";
           "Q3a"; "Q3b"; "Q3c"; "Q4a"; "Q4b"; "Q4c"] "Q4b" = Return i
    /\ window_months ["Q1a"; "Q1b"; "Q1c"; "Q2a"; "Q2b"; "Q2c";
                      "Q3a"; "Q3b"; "Q3c"; "Q4a"; "Q4b"; "Q4c"] i
       = Return ["Q4b"; a; b]
    /\ climate_class_from_rainfall kaduna_climate "Kaduna" "Q4b"
         ["Q1a"; "Q1b"; "Q1c"; "Q2a"; "Q2b"; "Q2c";
          "Q3a"; "Q3b"; "Q3c"; "Q4a"; "Q4b"; "Q4c"] = Return class
    /\ In class ["Low"; "Medium"; "High"].
Proof.
  apply classify_any_calendar.
  - reflexivity.
  - simpl. tauto.
Defined.

(** X10. The window is indexed modulo 12 whatever the length of the
    month list: with fewer than twelve names, a planting month found at
    the last position makes the second window entry fall outside the
    list, and the classifier raises an [IndexError]. *)
Theorem classify_short_calendar `{Text} {T : Type} `{Dtype T}
    (df : list (Climate.row T)) (state m : string) (mo : list string) :
  (length mo < 12)%nat ->
  index mo m = Return (length mo - 1)%nat ->
  climate_class_from_rainfall df state m mo
  = Raise (IndexError "list index out of range").
Proof.
  intros L E. destruct (index_from_bound _ _ _ _ E) as [B N].
  rewrite Nat.sub_0_r in N.
  unfold climate_class_from_rainfall, rainfall_sum. rewrite E. cbn [bind].
  unfold window_months. cbn [comprehension].
  rewrite Nat.add_0_r, Nat.mod_small by lia.
  unfold getitem at 1. rewrite N. cbn [bind].
  replace ((length mo - 1 + 1) mod 12)%nat with (length mo)
    by (rewrite Nat.mod_small; lia).
  unfold getitem at 1.
  rewrite (proj2 (nth_error_None mo (length mo)) (Nat.le_refl _)).
  reflexivity.
Qed.

Lemma classify_short_calendar_witness :
  climate_class_from_rainfall kaduna_climate "Kaduna" "July" ["June"; "July"]
  = Raise (IndexError "list index out of range").
Proof.
  apply classify_short_calendar.
  - simpl. lia.
  - reflexivity.
Defined.

(* ================================================================== *)
(** ** The orchestrator: validation, zone lookup and the report *)

Lemma validate_soil_level_lower `{Text} {T : Type} (self : MaizeAdvisorySystem T)
    (state a b : string) :
  lower a = lower b ->
  validate_soil_level self state a = Return tt ->
  validate_soil_level self state b = Return tt.
Proof.
  intros V. unfold validate_soil_level. rewrite V.
  destruct (isin _ _); simpl; intros E; [reflexivity | discriminate E].
Qed.

(** X11. The soil-level check accepts a level exactly when it accepts
    each of its case variants. *)
Theorem validate_soil_level_case `{Text} {T : Type}
    (self : MaizeAdvisorySystem T) (state a b : string) :
  case_variant a b ->
  (validate_soil_level self state a = Return tt
   <-> validate_soil_level self state b = Return tt).
Proof.
  intros V. apply lower_case_variant in V.
  split; apply validate_soil_level_lower; congruence.
Qed.

Lemma validate_soil_level_case_witness :
  validate_soil_level kaduna_system "Kaduna" "HIGH" = Return tt
  <-> validate_soil_level kaduna_system "Kaduna" "high" = Return tt.
Proof.
  apply validate_soil_level_case. apply ascii_lower_eq_iff. reflexivity.
Defined.

(** X12. For a region without a row in the soil table (the region name
    is compared as written) the check rejects every level, and the error
    lists no available level. *)
Theorem validate_soil_level_unknown_region `{Text} {T : Type}
    (self : MaizeAdvisorySystem T) (state soil_level : string) :
  (forall r, In r (soil_df self) -> Soil.state r <> state) ->
  validate_soil_level self state soil_level
  = Raise (ValueError
             ("Soil fertility level '" ++ soil_level
              ++ "' not valid for state '" ++ state
              ++ "'. Available levels: []")).
Proof.
  intros N. unfold validate_soil_level, available_levels.
  rewrite filter_none; [reflexivity|].
  intros r Hr. apply String.eqb_neq. now apply N.
Qed.

Lemma validate_soil_level_unknown_region_witness :
  validate_soil_level kaduna_system "kaduna" "High"
  = Raise (ValueError
             "Soil fertility level 'High' not valid for state 'kaduna'. Available levels: []").
Proof.
  apply (validate_soil_level_unknown_region kaduna_system "kaduna" "High").
  simpl. intros r [<- | [<- | [<- | []]]]; discriminate.
Defined.

(** X13. The agro-ecological zone of a region is read from the first row
    of the state table that names the region; later rows for the same
    region are not looked at, and a region without a row raises an
    [IndexError]. *)
Theorem agro_zone_first_row {T : Type} (self : MaizeAdvisorySystem T)
    (state : string) :
  (forall (before : list State.row) (r : State.row) (after : list State.row),
      state_df self = (before ++ r :: after)%list ->
      (forall x, In x before -> State.state x <> state) ->
      State.state r = state ->
      agro_zone_of self state = Return (State.agro_zone r))
  /\ ((forall x, In x (state_df self) -> State.state x <> state) ->
      agro_zone_of self state
      = Raise (IndexError "single positional indexer is out-of-bounds")).
Proof.
  unfold agro_zone_of. split.
  - intros before r after E B R. rewrite E, filter_app.
    rewrite (filter_none _ before)
      by (intros x Hx; apply String.eqb_neq; now apply B).
    simpl. apply String.eqb_eq in R. rewrite R. reflexivity.
  - intros N. rewrite filter_none; [reflexivity|].
    intros x Hx. apply String.eqb_neq. now apply N.
Qed.

Lemma agro_zone_first_row_witness :
  agro_zone_of
    (@init Z [] [ State.mk "Kano" "Sudan Savanna";
                  State.mk "Kaduna" "Northern Guinea Savanna";
                  State.mk "Kaduna" "Sahel" ] [] [])
    "Kaduna"
  = Return "Northern Guinea Savanna".
Proof.
  destruct (agro_zone_first_row
              (@init Z [] [ State.mk "Kano" "Sudan Savanna";
                            State.mk "Kaduna" "Northern Guinea Savanna";
                            State.mk "Kaduna" "Sahel" ] [] [])
              "Kaduna") as (F & _).
  apply (F [State.mk "Kano" "Sudan Savanna"]
           (State.mk "Kaduna" "Northern Guinea Savanna")
           [State.mk "Kaduna" "Sahel"]).
  - reflexivity.
  - intros x [<- | []]. discriminate.
  - reflexivity.
Defined.

Section Report.

Context `{Text} `{SortValues} {T : Type} `{Dtype T}.
Variable self : MaizeAdvisorySystem T.
Variables state planting_month soil_level : string.

(** The report assembled from a zone and a class. *)
Definition report_of (zone class : string) : Report :=
  let d := drought_risk_from_climate class in
  let soil_risk := soil_fertility_risk soil_level in
  let pest_risk := pest_disease_risk (fst d) soil_risk in
  mkReport state zone planting_month soil_level class (fst d) soil_risk
    pest_risk (recommend_fertilizer soil_level) (snd d)
    (pest_disease_recommendation pest_risk)
    (recommend_varieties self zone (fst d) soil_risk).

Lemma generate_report_steps :
  generate_report self state planting_month soil_level
  = (validate_soil_level self state soil_level ;;;
     zone <- agro_zone_of self state ;;
     class <- climate_class_from_rainfall (climate_df self) state
                planting_month (months_order self) ;;
     Return (report_of zone class)).
Proof.
  unfold generate_report, report_of.
  destruct (validate_soil_level _ _ _); [|reflexivity]. cbn [bind].
  destruct (agro_zone_of _ _); [|reflexivity]. cbn [bind].
  destruct (climate_class_from_rainfall _ _ _ _) as [c|]; [|reflexivity].
  cbn [bind]. destruct (drought_risk_from_climate c). reflexivity.
Qed.

Lemma generate_report_inv (rep : Report) :
  generate_report self state planting_month soil_level = Return rep ->
  validate_soil_level self state soil_level = Return tt
  /\ exists zone class,
       agro_zone_of self state = Return zone
       /\ climate_class_from_rainfall (climate_df self) state planting_month
            (months_order self) = Return class
       /\ rep = report_of zone class.
Proof.
  rewrite generate_report_steps.
  destruct (validate_soil_level _ _ _) as [[]|]; [|discriminate]. cbn [bind].
  destruct (agro_zone_of _ _) as [zone|]; [|discriminate]. cbn [bind].
  destruct (climate_class_from_rainfall _ _ _ _) as [c|]; [|discriminate].
  cbn [bind]. intros E. injection E as <-. split; [reflexivity|].
  exists zone, c. repeat split.
Qed.

End Report.

Lemma agro_zone_of_row {T : Type} (self : MaizeAdvisorySystem T) state zone :
  agro_zone_of self state = Return zone ->
  exists r, In r (state_df self) /\ State.state r = state
            /\ State.agro_zone r = zone.
Proof.
  unfold agro_zone_of.
  destruct (filter _ (state_df self)) as [|r l] eqn:F; [discriminate|].
  intros E. injection E as <-.
  assert (I : In r (filter (fun r => String.eqb (State.state r) state)
                      (state_df self))) by (rewrite F; now left).
  apply filter_In in I as [I S]. apply String.eqb_eq in S. eauto.
Qed.

(** X14. What [generate_report] does with the tables of a system built
    by [init], in the order of its checks: with a listed soil level, a
    region without a row in the state table raises an [IndexError]; with
    such a row, a planting month outside the calendar raises the
    [ValueError] of [list.index]; a report is returned exactly when the
    level is listed (a soil-table row of the region has the same
    lower-case form), the region has a state row and the month is one of
    the twelve names. *)
Theorem generate_report_outcome `{Text} `{SortValues} {T : Type} `{Dtype T}
    (maize : list Maize.row)
    (states : list State.row) (climate : list (Climate.row T))
    (soil : list Soil.row) (state planting_month soil_level : string) :
  let self := init maize states climate soil in
  let listed := listed_level self state soil_level in
  let has_row := exists r, In r states /\ State.state r = state in
  let outcome := generate_report self state planting_month soil_level in
  (listed -> ~ has_row ->
   outcome = Raise (IndexError "single positional indexer is out-of-bounds"))
  /\ (listed -> has_row -> ~ In planting_month calendar_months ->
      outcome = Raise (ValueError (repr planting_month ++ " is not in list")))
  /\ ((exists rep, outcome = Return rep)
      <-> listed /\ has_row /\ In planting_month calendar_months).
Proof.
  intros self listed has_row outcome. subst outcome.
  rewrite generate_report_steps.
  assert (Z : (exists zone, agro_zone_of self state = Return zone /\ has_row)
              \/ (agro_zone_of self state
                  = Raise (IndexError "single positional indexer is out-of-bounds")
                  /\ ~ has_row)).
  { destruct (agro_zone_of self state) as [zone|e] eqn:E.
    - left. exists zone. split; [reflexivity|].
      destruct (agro_zone_of_row _ _ _ E) as (r & I & S & _). now exists r.
    - right. unfold agro_zone_of in E.
      destruct (filter _ (state_df self)) as [|r l] eqn:F; [|discriminate].
      injection E as <-. split; [reflexivity|].
      intros (r & I & S).
      assert (K : In r (filter (fun r => String.eqb (State.state r) state)
                          (state_df self))).
      { apply filter_In. split; [exact I | now apply String.eqb_eq]. }
      rewrite F in K. destruct K. }
  assert (C : (In planting_month calendar_months
               /\ exists class,
                    climate_class_from_rainfall (climate_df self) state
                      planting_month (months_order self) = Return class)
              \/ (~ In planting_month calendar_months
                  /\ climate_class_from_rainfall (climate_df self) state
                       planting_month (months_order self)
                     = Raise (ValueError (repr planting_month ++ " is not in list")))).
  { destruct (in_dec string_dec planting_month calendar_months) as [M|M].
    - left. split; [exact M|]. eexists. apply (classify_matched _ _ _ M).
    - right. split; [exact M|]. apply (classify_missing _ _ _ M). }
  destruct (validate_soil_level_spec self state soil_level) as [VL VN].
  fold listed in VL, VN.
  pose proof (listed_level_dec self state soil_level) as D. fold listed in D.
  split; [|split].
  - intros L N. rewrite (VL L). cbn [bind].
    destruct Z as [(zone & _ & R) | [-> _]]; [contradiction | reflexivity].
  - intros L R M. rewrite (VL L). cbn [bind].
    destruct Z as [(zone & -> & _) | [_ N]]; [|contradiction]. cbn [bind].
    destruct C as [[M' _] | [_ ->]]; [contradiction | reflexivity].
  - split.
    + intros (rep & E). destruct D as [L|N].
      * rewrite (VL L) in E. cbn [bind] in E.
        destruct Z as [(zone & Ez & R) | [Ez _]]; rewrite Ez in E;
          cbn [bind] in E; [|discriminate].
        destruct C as [[M _] | [_ Ec]]; [tauto|].
        rewrite Ec in E. discriminate.
      * rewrite (VN N) in E. discriminate.
    + intros (L & R & M). rewrite (VL L). cbn [bind].
      destruct Z as [(zone & -> & _) | [_ N]]; [|contradiction]. cbn [bind].
      destruct C as [[_ (class & ->)] | [N _]]; [|contradiction]. cbn [bind].
      eauto.
Qed.

Lemma generate_report_outcome_witness :
  exists rep,
    @generate_report _ stable_kind _ _
      (init [] [State.mk "Kaduna" "Northern Guinea Savanna"] kaduna_climate
            [Soil.mk "Kaduna" "Low"])
      "Kaduna" "August" "LOW"
    = Return rep.
Proof.
  destruct (@generate_report_outcome _ stable_kind _ _
              [] [State.mk "Kaduna" "Northern Guinea Savanna"] kaduna_climate
              [Soil.mk "Kaduna" "Low"] "Kaduna" "August" "LOW") as (_ & _ & S).
  apply S. split; [|split].
  - exists (Soil.mk "Kaduna" "Low"). split; [simpl; tauto|].
    split; reflexivity.
  - exists (State.mk "Kaduna" "Northern Guinea Savanna"). simpl. tauto.
  - simpl. tauto.
Defined.

(** X15. What holds of every report that [generate_report] returns: the
    soil level is listed for the region (a soil-table row of the region
    has the same lower-case form); the zone is that of a state-table row
    of the region; the class is Low, Medium or High; the drought and pest
    risks are High, Medium or Low, never Unknown; the pest risk is Low
    exactly when the class is High and the soil risk is neither High nor
    Medium; and at most three varieties are listed, all adapted to the
    zone of the report. *)
Theorem report_invariants `{Text} `{SortValues} {T : Type} `{Dtype T}
    (self : MaizeAdvisorySystem T)
    (state planting_month soil_level : string) (rep : Report) :
  generate_report self state planting_month soil_level = Return rep ->
  listed_level self state soil_level
  /\ (exists r, In r (state_df self) /\ State.state r = state
                /\ State.agro_zone r = report_agro_zone rep)
  /\ In (report_climate_class rep) ["Low"; "Medium"; "High"]
  /\ In (report_drought_risk rep) ["High"; "Medium"; "Low"]
  /\ In (report_pest_risk rep) ["High"; "Medium"; "Low"]
  /\ (report_pest_risk rep = "Low" <->
      report_climate_class rep = "High"
      /\ report_soil_risk rep <> "High" /\ report_soil_risk rep <> "Medium")
  /\ (length (report_varieties rep) <= 3)%nat
  /\ Forall (fun v => Maize.adaptation_zone v = report_agro_zone rep)
            (report_varieties rep).
Proof.
  intros E. apply generate_report_inv in E as (V & zone & class & Z & C & ->).
  apply classify_returns in C.
  destruct drought_risk_of_class as (Dl & Dm & Dh).
  split.
  { apply available_listed. unfold validate_soil_level in V.
    destruct (isin _ _); [reflexivity | discriminate V]. }
  split; [exact (agro_zone_of_row _ _ _ Z)|].
  unfold report_of. cbn [report_agro_zone report_climate_class report_drought_risk
    report_pest_risk report_soil_risk report_varieties].
  split; [exact C|].
  assert (P : forall s, In (pest_disease_risk s (soil_fertility_risk soil_level))
                          ["High"; "Medium"; "Low"]).
  { intros s. unfold pest_disease_risk.
    destruct (_ || _); [|destruct (_ || _)]; simpl; tauto. }
  split; [|split; [apply P|split; [|split]]].
  - simpl in C. destruct C as [<- | [<- | [<- | []]]];
      rewrite ?Dl, ?Dm, ?Dh; simpl; tauto.
  - unfold pest_disease_risk.
    destruct (String.eqb_spec (soil_fertility_risk soil_level) "High") as [Sh|Sh];
      destruct (String.eqb_spec (soil_fertility_risk soil_level) "Medium") as [Sm|Sm];
      simpl in C; destruct C as [<- | [<- | [<- | []]]];
      rewrite ?Dl, ?Dm, ?Dh; simpl;
      split; try (intros K; discriminate K); try (intros (K & _); discriminate K);
      try tauto; try (intros _; repeat split; assumption).
  - apply recommend_varieties_length.
  - apply Forall_forall. intros v Hv.
    apply recommend_varieties_incl in Hv. unfold suitable_varieties in Hv.
    do 2 apply tolerance_filter_incl in Hv.
    apply filter_In in Hv as [_ Hz]. now apply String.eqb_eq.
Qed.

Lemma report_invariants_witness :
  exists rep,
    @generate_report _ stable_kind _ _ kaduna_system "Kaduna" "July" "Low"
    = Return rep
    /\ In (report_drought_risk rep) ["High"; "Medium"; "Low"]
    /\ (length (report_varieties rep) <= 3)%nat.
Proof.
  destruct (@generate_report _ stable_kind _ _ kaduna_system
              "Kaduna" "July" "Low") as [rep|e] eqn:E;
    [|vm_compute in E; discriminate E].
  exists rep. split; [reflexivity|].
  destruct (@report_invariants _ stable_kind _ _ kaduna_system
              "Kaduna" "July" "Low" rep E)
    as (_ & _ & _ & D & _ & _ & L & _).
  split; assumption.
Defined.

(** X16. The letter case of the soil level changes nothing in a report
    but the line that repeats the level as it was typed. *)
Theorem generate_report_soil_case `{Text} `{SortValues} {T : Type} `{Dtype T}
    (self : MaizeAdvisorySystem T)
    (state planting_month a b : string) (rep : Report) :
  case_variant a b ->
  generate_report self state planting_month a = Return rep ->
  generate_report self state planting_month b
  = Return (with_soil_fertility rep b).
Proof.
  intros V E. apply generate_report_inv in E as (Va & zone & class & Z & C & ->).
  rewrite generate_report_steps.
  rewrite (validate_soil_level_lower self state a b
             (lower_case_variant a b V) Va). cbn [bind].
  rewrite Z. cbn [bind]. rewrite C. cbn [bind].
  unfold report_of, with_soil_fertility. cbn.
  rewrite (soil_risk_case_insensitive a b V).
  apply lower_case_variant in V. unfold recommend_fertilizer. rewrite V.
  reflexivity.
Qed.

Lemma generate_report_soil_case_witness :
  exists rep,
    @generate_report _ stable_kind _ _ kaduna_system "Kaduna" "July" "Low"
    = Return rep
    /\ @generate_report _ stable_kind _ _ kaduna_system "Kaduna" "July" "lOW"
       = Return (with_soil_fertility rep "lOW").
Proof.
  destruct (@generate_report _ stable_kind _ _ kaduna_system
              "Kaduna" "July" "Low") as [rep|e] eqn:E;
    [|vm_compute in E; discriminate E].
  exists rep. split; [reflexivity|].
  apply (@generate_report_soil_case _ stable_kind _ _ kaduna_system
           "Kaduna" "July" "Low" "lOW" rep).
  - apply ascii_lower_eq_iff. reflexivity.
  - exact E.
Defined.

(** X17. A soil level can pass the check without being low, medium or
    high (the soil table may list any text).  The report then has an
    Unknown soil risk, the all-zero fertilizer plan, and a pest risk equal
    to the drought risk. *)
Theorem report_unrecognised_level `{Text} `{SortValues} {T : Type} `{Dtype T}
    (self : MaizeAdvisorySystem T)
    (state planting_month soil_level : string) (rep : Report) :
  generate_report self state planting_month soil_level = Return rep ->
  ~ In (lower soil_level) ["low"; "medium"; "high"] ->
  report_soil_risk rep = "Unknown"
  /\ report_fertilizer rep = Fertilizer.mk 0 0 0 "No recommendation"
  /\ report_pest_risk rep = report_drought_risk rep.
Proof.
  intros E N. apply generate_report_inv in E as (_ & zone & class & _ & C & ->).
  apply classify_returns in C.
  destruct drought_risk_of_class as (Dl & Dm & Dh).
  unfold report_of. cbn.
  unfold soil_fertility_risk, recommend_fertilizer.
  destruct (String.eqb_spec (lower soil_level) "low") as [K|_];
    [exfalso; apply N; rewrite K; simpl; tauto|].
  destruct (String.eqb_spec (lower soil_level) "medium") as [K|_];
    [exfalso; apply N; rewrite K; simpl; tauto|].
  destruct (String.eqb_spec (lower soil_level) "high") as [K|_];
    [exfalso; apply N; rewrite K; simpl; tauto|].
  repeat split.
  simpl in C. destruct C as [<- | [<- | [<- | []]]];
    rewrite ?Dl, ?Dm, ?Dh; reflexivity.
Qed.

Lemma report_unrecognised_level_witness :
  exists rep,
    @generate_report _ stable_kind _ _
      (init [] [State.mk "Kano" "Sudan Savanna"] kaduna_climate
            [Soil.mk "Kano" "Sandy"])
      "Kano" "May" "sandy" = Return rep
    /\ report_soil_risk rep = "Unknown"
    /\ report_fertilizer rep = Fertilizer.mk 0 0 0 "No recommendation"
    /\ report_pest_risk rep = report_drought_risk rep.
Proof.
  destruct (@generate_report _ stable_kind _ _
              (init [] [State.mk "Kano" "Sudan Savanna"] kaduna_climate
                    [Soil.mk "Kano" "Sandy"])
              "Kano" "May" "sandy") as [rep|e] eqn:E;
    [|vm_compute in E; discriminate E].
  exists rep. split; [reflexivity|].
  apply (@report_unrecognised_level _ stable_kind _ _
           (init [] [State.mk "Kano" "Sudan Savanna"] kaduna_climate
                 [Soil.mk "Kano" "Sandy"])
           "Kano" "May" "sandy" rep E).
  simpl. intros [K | [K | [K | []]]]; discriminate K.
Defined.

(* ================================================================== *)
(** ** The variety selector: what is returned and what is left out *)

(** Two descending arrangements of the same rows are equal when no two
    rows have the same yield. *)
Lemma sorted_perm_unique (l1 l2 : list Maize.row) :
  StronglySorted yield_ge l1 -> StronglySorted yield_ge l2 ->
  Permutation l1 l2 -> NoDup (map Maize.yield_potential l1) -> l1 = l2.
Proof.
  intros S1. revert l2. induction S1 as [|a l1 S1 IH F1]; intros l2 S2 P N.
  - apply Permutation_nil in P. now subst.
  - destruct l2 as [|b l2]; [apply Permutation_sym, Permutation_nil in P; discriminate|].
    inversion S2 as [|? ? S2' F2]; subst.
    inversion N as [|? ? Na N']; subst.
    rewrite Forall_forall in F1, F2.
    assert (E : a = b).
    { assert (Ha : In a (b :: l2)) by (eapply Permutation_in; [exact P | now left]).
      assert (Hb : In b (a :: l1))
        by (eapply Permutation_in; [symmetry; exact P | now left]).
      destruct Ha as [Ha | Ha]; [now symmetry|].
      destruct Hb as [Hb | Hb]; [assumption|].
      exfalso. apply Na.
      pose proof (F2 a Ha) as Y1. pose proof (F1 b Hb) as Y2.
      unfold yield_ge in Y1, Y2.
      replace (Maize.yield_potential a) with (Maize.yield_potential b) by lia.
      now apply in_map. }
    subst b. f_equal. apply IH; trivial.
    now apply Permutation_cons_inv in P.
Qed.

Lemma suitable_varieties_perm `{Text} {T : Type}
    (self self' : MaizeAdvisorySystem T) zone d s :
  Permutation (maize_df self) (maize_df self') ->
  Permutation (suitable_varieties self zone d s)
              (suitable_varieties self' zone d s).
Proof.
  intros P. unfold suitable_varieties, zone_filter.
  now do 2 apply tolerance_filter_perm; apply filter_perm.
Qed.

Lemma sort_values_unique (S1 S2 : SortValues) (l1 l2 : list Maize.row) :
  Permutation l1 l2 -> NoDup (map Maize.yield_potential l1) ->
  @sort_values S1 l1 = @sort_values S2 l2.
Proof.
  intros P N. apply sorted_perm_unique.
  - apply Sorted_StronglySorted; [apply yield_ge_trans | apply sort_values_sorted].
  - apply Sorted_StronglySorted; [apply yield_ge_trans | apply sort_values_sorted].
  - rewrite <- (@sort_values_perm S1 l1), <- (@sort_values_perm S2 l2). exact P.
  - eapply Permutation_NoDup; [|exact N].
    apply Permutation_map, sort_values_perm.
Qed.

(** X18. The rows that pass the filters are exactly the catalog rows of
    the zone (compared as written) whose drought tolerance meets the
    drought risk and whose low-nitrogen tolerance meets the soil risk; and
    every row returned is such a row. *)
Theorem selection_sound `{Text} `{SortValues} {T : Type}
    (self : MaizeAdvisorySystem T)
    (zone drought_risk soil_risk : string) (r : Maize.row) :
  (In r (suitable_varieties self zone drought_risk soil_risk) <->
   In r (maize_df self)
   /\ Maize.adaptation_zone r = zone
   /\ tolerates drought_risk (Maize.drought_tolerance r)
   /\ tolerates soil_risk (Maize.low_n_tolerance r))
  /\ (In r (recommend_varieties self zone drought_risk soil_risk) ->
      In r (maize_df self)
      /\ Maize.adaptation_zone r = zone
      /\ tolerates drought_risk (Maize.drought_tolerance r)
      /\ tolerates soil_risk (Maize.low_n_tolerance r)).
Proof.
  split; [apply suitable_varieties_In|].
  intros I. apply suitable_varieties_In. now apply recommend_varieties_incl.
Qed.

(** X19. No row that passes the filters and is left out has a higher
    yield than a row that is returned. *)
Theorem selection_top_ranked `{Text} `{SortValues} {T : Type}
    (self : MaizeAdvisorySystem T)
    (zone drought_risk soil_risk : string) (a b : Maize.row) :
  In a (recommend_varieties self zone drought_risk soil_risk) ->
  In b (suitable_varieties self zone drought_risk soil_risk) ->
  ~ In b (recommend_varieties self zone drought_risk soil_risk) ->
  Maize.yield_potential b <= Maize.yield_potential a.
Proof.
  unfold recommend_varieties.
  set (l := sort_values (suitable_varieties self zone drought_risk soil_risk)).
  intros Ha Hb Nb.
  assert (S : StronglySorted yield_ge (firstn 3 l ++ skipn 3 l)).
  { rewrite firstn_skipn. apply Sorted_StronglySorted;
      [apply yield_ge_trans | apply sort_values_sorted]. }
  apply (StronglySorted_app_rel _ _ _ S a b Ha).
  assert (I : In b (firstn 3 l ++ skipn 3 l)).
  { rewrite firstn_skipn. eapply Permutation_in; [apply sort_values_perm | exact Hb]. }
  apply in_app_or in I as [I|I]; [contradiction | exact I].
Qed.

Lemma selection_top_ranked_witness :
  Maize.yield_potential (Maize.mk "H1" "Sahel" "High" "High" 3 "Late" "Yellow")
  <= Maize.yield_potential (Maize.mk "M3" "Sahel" "Medium" "High" 7 "Late" "Yellow").
Proof.
  apply (@selection_top_ranked _ stable_kind _ (catalog_only crowded_catalog)
           "Sahel" "Medium" "Low").
  - vm_compute. tauto.
  - vm_compute. tauto.
  - vm_compute. intros [E | [E | [E | []]]]; discriminate E.
Defined.

(** X20. The selection returns three rows when three or more pass the
    filters and all of them otherwise; in particular it is empty only when
    no row passes. *)
Theorem selection_count `{Text} `{SortValues} {T : Type}
    (self : MaizeAdvisorySystem T) (zone drought_risk soil_risk : string) :
  length (recommend_varieties self zone drought_risk soil_risk)
  = Nat.min 3 (length (suitable_varieties self zone drought_risk soil_risk))
  /\ ((length (suitable_varieties self zone drought_risk soil_risk) <= 3)%nat ->
      Permutation (suitable_varieties self zone drought_risk soil_risk)
                  (recommend_varieties self zone drought_risk soil_risk))
  /\ (recommend_varieties self zone drought_risk soil_risk = [] ->
      suitable_varieties self zone drought_risk soil_risk = []).
Proof.
  unfold recommend_varieties.
  set (s := suitable_varieties self zone drought_risk soil_risk).
  pose proof (Permutation_length (sort_values_perm s)) as L.
  split; [|split].
  - rewrite length_firstn. now rewrite <- L.
  - intros B. rewrite firstn_all2 by lia. apply sort_values_perm.
  - intros E. apply (f_equal (@length _)) in E.
    rewrite length_firstn, <- L in E. simpl in E.
    destruct s as [|x s']; [reflexivity | simpl in E; lia].
Qed.

Lemma selection_count_witness :
  Permutation
    (suitable_varieties (catalog_only tied_catalog) "Sudan Savanna" "High" "Low")
    (@recommend_varieties _ stable_kind _ (catalog_only tied_catalog)
       "Sudan Savanna" "High" "Low").
Proof.
  destruct (@selection_count _ stable_kind _ (catalog_only tied_catalog)
              "Sudan Savanna" "High" "Low") as (_ & P & _).
  apply P. vm_compute. repeat constructor.
Defined.

(** X21. When the rows that pass the filters have pairwise different
    yields, the selection is the same under every sort kind. *)
Theorem selection_independent_of_sort `{Text} (S1 S2 : SortValues) {T : Type}
    (self : MaizeAdvisorySystem T) (zone drought_risk soil_risk : string) :
  NoDup (map Maize.yield_potential
           (suitable_varieties self zone drought_risk soil_risk)) ->
  @recommend_varieties _ S1 _ self zone drought_risk soil_risk
  = @recommend_varieties _ S2 _ self zone drought_risk soil_risk.
Proof.
  intros N. unfold recommend_varieties. f_equal.
  now apply sort_values_unique.
Qed.

Lemma selection_independent_of_sort_witness :
  @recommend_varieties _ stable_kind _ (catalog_only crowded_catalog)
     "Sahel" "Medium" "High"
  = @recommend_varieties _ stable_kind_left _ (catalog_only crowded_catalog)
      "Sahel" "Medium" "High".
Proof.
  apply selection_independent_of_sort. vm_compute.
  repeat (constructor; [simpl; intuition discriminate|]). constructor.
Defined.

(** X22. When the rows that pass the filters have pairwise different
    yields, the selection does not depend on the order of the rows in the
    catalog. *)
Theorem selection_catalog_order `{Text} `{SortValues} {T : Type}
    (self self' : MaizeAdvisorySystem T)
    (zone drought_risk soil_risk : string) :
  Permutation (maize_df self) (maize_df self') ->
  NoDup (map Maize.yield_potential
           (suitable_varieties self zone drought_risk soil_risk)) ->
  recommend_varieties self zone drought_risk soil_risk
  = recommend_varieties self' zone drought_risk soil_risk.
Proof.
  intros P N. unfold recommend_varieties. f_equal.
  apply sort_values_unique; [|exact N]. now apply suitable_varieties_perm.
Qed.

Lemma selection_catalog_order_witness :
  @recommend_varieties _ stable_kind _ (catalog_only crowded_catalog)
     "Sahel" "Low" "High"
  = @recommend_varieties _ stable_kind _ (catalog_only (rev crowded_catalog))
      "Sahel" "Low" "High".
Proof.
  apply (@selection_catalog_order _ stable_kind).
  - simpl maize_df. apply Permutation_rev.
  - vm_compute.
    repeat (constructor; [simpl; intuition discriminate|]). constructor.
Defined.

(** X23. A higher risk never lets more rows through, for the drought
    risk as for the soil risk: the rows that pass for High pass for
    Medium, the rows that pass for Medium pass for Low, and whatever the
    two risks every row that passes is a catalog row of the zone. *)
Theorem filters_narrow_with_risk `{Text} {T : Type}
    (self : MaizeAdvisorySystem T) (zone drought_risk soil_risk : string) :
  incl (suitable_varieties self zone "High" soil_risk)
       (suitable_varieties self zone "Medium" soil_risk)
  /\ incl (suitable_varieties self zone "Medium" soil_risk)
          (suitable_varieties self zone "Low" soil_risk)
  /\ incl (suitable_varieties self zone drought_risk "High")
          (suitable_varieties self zone drought_risk "Medium")
  /\ incl (suitable_varieties self zone drought_risk "Medium")
          (suitable_varieties self zone drought_risk "Low")
  /\ incl (suitable_varieties self zone drought_risk soil_risk)
          (suitable_varieties self zone "Low" "Low")
  /\ suitable_varieties self zone "Low" "Low"
     = filter (fun r => String.eqb (Maize.adaptation_zone r) zone) (maize_df self).
Proof.
  unfold suitable_varieties. repeat split.
  - apply tolerance_filter_mono, tolerance_filter_High_Medium.
  - apply tolerance_filter_mono, tolerance_filter_incl.
  - apply tolerance_filter_High_Medium.
  - apply tolerance_filter_incl.
  - eapply incl_tran; [apply tolerance_filter_incl | apply tolerance_filter_incl].
Qed.

(** X24. The first row returned has the highest yield of all the rows
    that pass the filters, returned or not. *)
Theorem selection_best_first `{Text} `{SortValues} {T : Type}
    (self : MaizeAdvisorySystem T)
    (zone drought_risk soil_risk : string) (a b : Maize.row)
    (rest : list Maize.row) :
  recommend_varieties self zone drought_risk soil_risk = a :: rest ->
  In b (suitable_varieties self zone drought_risk soil_risk) ->
  Maize.yield_potential b <= Maize.yield_potential a.
Proof.
  unfold recommend_varieties.
  set (s := suitable_varieties self zone drought_risk soil_risk).
  intros E Hb.
  assert (S : StronglySorted yield_ge (sort_values s))
    by (apply Sorted_StronglySorted; [apply yield_ge_trans | apply sort_values_sorted]).
  assert (I : In b (sort_values s))
    by (eapply Permutation_in; [apply sort_values_perm | exact Hb]).
  destruct (sort_values s) as [|x t]; [discriminate E|].
  simpl in E. injection E as -> _.
  inversion S as [|? ? _ F]; subst. rewrite Forall_forall in F.
  destruct I as [<- | I]; [lia | exact (F b I)].
Qed.

Lemma selection_best_first_witness :
  Maize.yield_potential (Maize.mk "M2" "Sahel" "Medium" "High" 8 "Early" "White")
  <= Maize.yield_potential (Maize.mk "M1" "Sahel" "Medium" "High" 9 "Early" "White").
Proof.
  apply (@selection_best_first _ stable_kind _ (catalog_only crowded_catalog)
           "Sahel" "Medium" "Low" _ _
           [ Maize.mk "M2" "Sahel" "Medium" "High" 8 "Early" "White";
             Maize.mk "M3" "Sahel" "Medium" "High" 7 "Late" "Yellow" ]).
  - reflexivity.
  - vm_compute. tauto.
Defined.

(** X25. On an [int64] column, putting two climate tables together adds
    their rainfall sums as 64-bit integers: for a planting month of the
    calendar, the sum over the rows of the first table followed by the
    rows of the second is the wrapped sum of the two sums. *)
Theorem rainfall_sum_additive `{Text} (df1 df2 : list (Climate.row Z))
    (state m : string) :
  In m calendar_months ->
  exists t1 t2,
    rainfall_sum df1 state m calendar_months = Return t1
    /\ rainfall_sum df2 state m calendar_months = Return t2
    /\ rainfall_sum (df1 ++ df2) state m calendar_months
       = Return (wrap64 (t1 + t2)).
Proof.
  intros M. do 2 eexists. rewrite !rainfall_sum_int64 by assumption.
  split; [reflexivity|]. split; [reflexivity|].
  unfold matched_records. rewrite filter_app, rainfall_total_app.
  now rewrite wrap64_add.
Qed.

Lemma rainfall_sum_additive_witness :
  exists t1 t2,
    rainfall_sum kaduna_climate "Kaduna" "August" calendar_months = Return t1
    /\ rainfall_sum [Climate.mk "Kaduna" "October" 12] "Kaduna" "August"
         calendar_months = Return t2
    /\ rainfall_sum (kaduna_climate ++ [Climate.mk "Kaduna" "October" 12])
         "Kaduna" "August" calendar_months = Return (wrap64 (t1 + t2)).
Proof.
  apply rainfall_sum_additive. simpl. tauto.
Defined.


